(** * e2e-tests: resource-lifecycle helpers and log collection

    A shallow embedding of

    - [pkg/utils/has/applications.go]: the Application CRUD helpers of the
      [has] package (create and wait for the devfile, delete and wait for
      absence, bulk delete and wait for an empty list);
    - the [logs] package: [StoreTestLogs].

    The Go code talks to a Kubernetes API server, sleeps between polls and
    writes to the local file system.  Those collaborators are kept abstract:
    a world type [W] with one transition function per call, so every theorem
    below holds for every behaviour of the cluster.  The helpers themselves
    are written in a state monad over a small machine state: a heap for the
    [*Application] objects the code shares between a function and the
    closure it polls with, the world, and the trace of calls made so far. *)

From Stdlib Require Import ZArith Lia.
From stdpp Require Import base list strings gmap.

Open Scope string_scope.
Open Scope list_scope.
Open Scope Z_scope.

(** ** Package [time]: durations are [int64] nanosecond counts *)

Module time.

Definition Duration := Z.

(** Two's-complement wrap-around of [int64] arithmetic. *)
Definition wrap64 (z : Z) : Z := (z + 2 ^ 63) mod 2 ^ 64 - 2 ^ 63.

Definition mul (a b : Duration) : Duration := wrap64 (a * b).

Definition Nanosecond : Duration := 1.
Definition Microsecond : Duration := mul 1000 Nanosecond.
Definition Millisecond : Duration := mul 1000 Microsecond.
Definition Second : Duration := mul 1000 Millisecond.
Definition Minute : Duration := mul 60 Second.

(** Time passing is an action on the world: the cluster may change while
    the caller sleeps (a controller reconciles, a finalizer completes). *)
Class Clock (W : Type) := { Sleep : Duration → W → W }.

End time.

(** ** Errors

    A Go [error] is either a Kubernetes [*StatusError], which carries the
    reason the API server gave, or a plain message as built by [errors.New]
    and [fmt.Errorf] (the formats used in this repository have no [%w], so
    the result wraps nothing).  A nil error is [None]. *)

Inductive StatusReason : Type :=
| StatusReasonNotFound
| StatusReasonAlreadyExists
| StatusReasonOther (reason : string).

Inductive error : Type :=
| StatusError (reason : StatusReason) (message : string)
| errorString (message : string).

(** [err.Error()]; also what the verbs [%s] and [%+v] print for an error. *)
Definition Error (e : error) : string :=
  match e with
  | StatusError _ m => m
  | errorString m => m
  end.

(** [k8sErrors.IsNotFound]. *)
Definition IsNotFound (e : error) : bool :=
  match e with
  | StatusError StatusReasonNotFound _ => true
  | _ => false
  end.

(** A Go result pair [(v, err)] in which exactly one side is meaningful. *)
Inductive result (A : Type) : Type :=
| Ok (a : A)
| Err (e : error).
Arguments Ok {A} a.
Arguments Err {A} e.

(** ** The Application resource (the fields this code reads or writes) *)

Record ObjectMeta := { Name : string; Namespace : string }.
Record ApplicationSpec := { DisplayName : string }.
Record ApplicationStatus := { Devfile : string }.

Record Application := {
  Meta : ObjectMeta;
  Spec : ApplicationSpec;
  Status : ApplicationStatus
}.

(** The zero value [appservice.Application{}]. *)
Definition zeroApplication : Application :=
  {| Meta := {| Name := ""; Namespace := "" |};
     Spec := {| DisplayName := "" |};
     Status := {| Devfile := "" |} |}.

Definition setStatus (st : ApplicationStatus) (a : Application) : Application :=
  {| Meta := Meta a; Spec := Spec a; Status := st |}.

Record NamespacedName := { KeyName : string; KeyNamespace : string }.

(** [rclient.ObjectKeyFromObject]. *)
Definition ObjectKeyFromObject (a : Application) : NamespacedName :=
  {| KeyName := Name (Meta a); KeyNamespace := Namespace (Meta a) |}.

(** ** The controller-runtime client, as transitions of the world *)

Module rclient.

Class Client (W : Type) := {
  (** [Get(ctx, key, obj)]: the object read into [obj], or an error. *)
  Get : NamespacedName → W → result Application * W;
  (** [Create(ctx, obj)]: on success [obj] is overwritten with the object
      as stored by the server. *)
  Create : Application → W → result Application * W;
  (** [Delete(ctx, obj)]. *)
  Delete : Application → W → option error * W;
  (** [DeleteAllOf(ctx, &Application{}, InNamespace(ns))]. *)
  DeleteAllOf : string → W → option error * W;
  (** [List(ctx, list, &ListOptions{Namespace: ns})]: the items read. *)
  List : string → W → result (list Application) * W
}.

End rclient.

(** ** Machine state *)

(** Every call that leaves the process is recorded with its answer. *)
Inductive Event : Type :=
| EvCreate (obj : Application) (r : result Application)
| EvGet (key : NamespacedName) (r : result Application)
| EvDelete (obj : Application) (r : option error)
| EvDeleteAllOf (ns : string) (r : option error)
| EvList (ns : string) (r : result (list Application))
| EvSleep (d : time.Duration).

(** A [*Application] is an index into the heap.  Every pointer the source
    dereferences comes from a [&appservice.Application{...}], so no nil
    case is modelled; reading a cell that was never allocated gives the
    zero value. *)
Definition ptr := nat.
Bind Scope nat_scope with ptr.

Record State (W : Type) := mkState {
  heap : list Application;
  world : W;
  trace : list Event
}.
Arguments mkState {W} _ _ _.
Arguments heap {W} _.
Arguments world {W} _.
Arguments trace {W} _.

(** Go statements are state transformers; [M S A] is a statement block that
    yields an [A] over machine states [S]. *)
Definition M (S A : Type) : Type := S → A * S.

Definition ret {S A} (a : A) : M S A := fun s => (a, s).

Definition bind {S A B} (c : M S A) (k : A → M S B) : M S B :=
  fun s => let (a, s') := c s in k a s'.

Declare Scope go_scope.
Delimit Scope go_scope with go.
Notation "x <- c ;; k" := (bind c (fun x => k))
  (at level 100, c at next level, right associativity) : go_scope.
Notation "c ;; k" := (bind c (fun _ => k))
  (at level 100, right associativity) : go_scope.
Open Scope go_scope.

(** The object [p] points to in heap [h]. *)
Definition deref (h : list Application) (p : ptr) : Application :=
  default zeroApplication (h !! p).

Section Machine.
Context {W : Type}.

(** [p := &v] *)
Definition new (a : Application) : M (State W) ptr :=
  fun s => (length (heap s), mkState (heap s ++ [a]) (world s) (trace s)).

(** [*p] *)
Definition load (p : ptr) : M (State W) Application :=
  fun s => (deref (heap s) p, s).

(** [*p = v] *)
Definition store (p : ptr) (a : Application) : M (State W) unit :=
  fun s => (tt, mkState (<[p := a]> (heap s)) (world s) (trace s)).

(** Runs one transition of the world and records it. *)
Definition call {A} (op : W → A * W) (ev : A → Event) : M (State W) A :=
  fun s => let (r, w) := op (world s) in
           (r, mkState (heap s) w (trace s ++ [ev r])).

End Machine.

(** ** Package [utils] *)

Module utils.
Section Utils.
Context {W : Type} `{!time.Clock W}.

(** [wait.ConditionFunc]: a closure returning [(done, err)]. *)
Definition ConditionFunc : Type := M (State W) (bool * option error).

(** The interval between two evaluations of a condition, in nanoseconds;
    the specification only says that it is fixed and short. *)
Variable interval : positive.

Definition ErrWaitTimeout : error :=
  errorString "timed out waiting for the condition".

Definition sleep (d : time.Duration) : M (State W) unit :=
  fun s => (tt, mkState (heap s) (time.Sleep d (world s))
                        (trace s ++ [EvSleep d])).

(** The number of interval ticks it takes for a deadline [timeout] from
    now to elapse: the least [n] with [timeout <= n * interval], and [0]
    for a zero or negative timeout. *)
Definition ticksUntil (timeout : time.Duration) : nat :=
  Z.to_nat ((timeout + Z.pos interval - 1) / Z.pos interval).

(** The poll loop, with [ticks] intervals left before the deadline. *)
Fixpoint poll (cond : ConditionFunc) (ticks : nat) : M (State W) (option error) :=
  r <- cond ;;
  match r with
  | (_, Some e) => ret (Some e)
  | (true, None) => ret None
  | (false, None) =>
      match ticks with
      | O => ret (Some ErrWaitTimeout)
      | S k => sleep (Z.pos interval) ;; poll cond k
      end
  end.

(** Modelled from the spec: [utils.WaitUntil] belongs to package [utils]
    ([pkg/utils]), of which only the callers are among the sources.  The
    specification gives its semantics: "evaluate the condition function at
    a fixed short interval until (a) it returns true → success, (b) it
    returns a non-nil error → immediate failure (no further retries), or
    (c) the deadline elapses → timeout failure".  The condition is
    evaluated once at the start and once more after each interval; the
    deadline has elapsed after [ticksUntil timeout] intervals. *)
Definition WaitUntil (cond : ConditionFunc) (timeout : time.Duration)
  : M (State W) (option error) :=
  poll cond (ticksUntil timeout).

End Utils.
End utils.

(** ** Package [has]: [pkg/utils/has/applications.go]

    The receiver [h *hasFactory] only contributes [h.KubeRest()], the
    client; it is the [rclient.Client] instance of the world. *)

Module has.
Section Has.
Context {W : Type} `{!rclient.Client W} `{!time.Clock W}.

Variable interval : positive.

(** [utils.ToPrettyJSONString], declared in package [utils]; the code below
    only passes its result on. *)
Variable ToPrettyJSONString : Application → string.

(** [h.KubeRest().Get(ctx, key, obj)] *)
Definition kubeGet (key : NamespacedName) (obj : ptr) : M (State W) (option error) :=
  r <- call (rclient.Get key) (EvGet key) ;;
  match r with
  | Err err => ret (Some err)
  | Ok a => store obj a ;; ret None
  end.

(** [h.KubeRest().Create(ctx, obj)] *)
Definition kubeCreate (obj : ptr) : M (State W) (option error) :=
  a <- load obj ;;
  r <- call (rclient.Create a) (EvCreate a) ;;
  match r with
  | Err err => ret (Some err)
  | Ok a' => store obj a' ;; ret None
  end.

(** [h.KubeRest().Delete(ctx, obj)] *)
Definition kubeDelete (obj : ptr) : M (State W) (option error) :=
  a <- load obj ;;
  call (rclient.Delete a) (EvDelete a).

(** [h.KubeRest().DeleteAllOf(ctx, &appservice.Application{}, rclient.InNamespace(namespace))] *)
Definition kubeDeleteAllOf (namespace : string) : M (State W) (option error) :=
  call (rclient.DeleteAllOf namespace) (EvDeleteAllOf namespace).

(** [h.KubeRest().List(ctx, applicationList, &rclient.ListOptions{Namespace: namespace})];
    the result stands for [applicationList.Items] after the call. *)
Definition kubeList (namespace : string) : M (State W) (result (list Application)) :=
  call (rclient.List namespace) (EvList namespace).

(** [GetApplication] (lines 39-48). *)
Definition GetApplication (name namespace : string) : M (State W) (result ptr) :=
  application <- new zeroApplication ;;
  err <- kubeGet {| KeyName := name; KeyNamespace := namespace |} application ;;
  match err with
  | Some err => ret (Err err)
  | None => ret (Ok application)
  end.

(** [ApplicationDevfilePresent] (lines 51-60): the closure keeps the pointer
    [application] and writes the status it read through it. *)
Definition ApplicationDevfilePresent (application : ptr) : utils.ConditionFunc (W := W) :=
  this <- load application ;;
  r <- GetApplication (Name (Meta this)) (Namespace (Meta this)) ;;
  match r with
  | Err _ => ret (false, None)
  | Ok app =>
      fetched <- load app ;;
      cur <- load application ;;
      store application (setStatus (Status fetched) cur) ;;
      upd <- load application ;;
      ret (negb (String.eqb (Devfile (Status upd)) ""), None)
  end.

(** [refreshApplicationForErrorDebug] (lines 141-149). *)
Definition refreshApplicationForErrorDebug (application : ptr) : M (State W) ptr :=
  retApp <- new zeroApplication ;;
  this <- load application ;;
  err <- kubeGet (ObjectKeyFromObject this) retApp ;;
  match err with
  | Some _ => ret application
  | None => ret retApp
  end.

(** The message built by [fmt.Errorf] at line 93. *)
Definition createTimeoutMessage (name namespace : string) (err : error) (json : string) : string :=
  "timed out when waiting for devfile content creation for application " +:+ name
  +:+ " in " +:+ namespace +:+ " namespace: " +:+ Error err
  +:+ ". applicattion: " +:+ json.

(** [CreateApplicationWithTimeout] (lines 76-97); the pair is the Go result
    application pointer and the error, [None] standing for [nil]. *)
Definition CreateApplicationWithTimeout (name namespace : string) (timeout : time.Duration)
  : M (State W) (option ptr * option error) :=
  application <- new {| Meta := {| Name := name; Namespace := namespace |};
                        Spec := {| DisplayName := name |};
                        Status := {| Devfile := "" |} |} ;;
  err <- kubeCreate application ;;
  match err with
  | Some err => ret (None, Some err)
  | None =>
      err <- utils.WaitUntil interval (ApplicationDevfilePresent application) timeout ;;
      match err with
      | Some err =>
          application <- refreshApplicationForErrorDebug application ;;
          last <- load application ;;
          ret (None, Some (errorString
                 (createTimeoutMessage name namespace err (ToPrettyJSONString last))))
      | None => ret (Some application, None)
      end
  end.

(** [CreateApplication] (lines 71-73). *)
Definition CreateApplication (name namespace : string)
  : M (State W) (option ptr * option error) :=
  CreateApplicationWithTimeout name namespace (time.mul time.Minute 10).

(** [ApplicationDeleted] (lines 118-123). *)
Definition ApplicationDeleted (application : ptr) : utils.ConditionFunc (W := W) :=
  this <- load application ;;
  r <- GetApplication (Name (Meta this)) (Namespace (Meta this)) ;;
  ret (match r with
       | Err err => IsNotFound err
       | Ok _ => false
       end, None).

(** [DeleteApplication] (lines 102-115). *)
Definition DeleteApplication (name namespace : string) (reportErrorOnNotFound : bool)
  : M (State W) (option error) :=
  application <- new {| Meta := {| Name := name; Namespace := namespace |};
                        Spec := {| DisplayName := "" |};
                        Status := {| Devfile := "" |} |} ;;
  err <- kubeDelete application ;;
  let confirm :=
    utils.WaitUntil interval (ApplicationDeleted application) (time.mul 1 time.Minute) in
  match err with
  | Some err =>
      if negb (IsNotFound err) || (IsNotFound err && reportErrorOnNotFound)
      then ret (Some (errorString ("error deleting an application: " +:+ Error err)))
      else confirm
  | None => confirm
  end.

(** The closure polled by [DeleteAllApplicationsInASpecificNamespace]
    (lines 132-137). *)
Definition applicationListEmpty (namespace : string) : utils.ConditionFunc (W := W) :=
  r <- kubeList namespace ;;
  match r with
  | Err _ => ret (false, None)
  | Ok items => ret (Nat.eqb (length items) 0, None)
  end.

(** [DeleteAllApplicationsInASpecificNamespace] (lines 126-138). *)
Definition DeleteAllApplicationsInASpecificNamespace (namespace : string)
  (timeout : time.Duration) : M (State W) (option error) :=
  err <- kubeDeleteAllOf namespace ;;
  match err with
  | Some err =>
      ret (Some (errorString ("error deleting applications from the namespace "
                              +:+ namespace +:+ ": " +:+ Error err)))
  | None => utils.WaitUntil interval (applicationListEmpty namespace) timeout
  end.

End Has.
End has.

(** ** Package [logs]: [StoreTestLogs]

    The collaborators are the process environment and file system
    ([os.Getwd], [utils.GetEnv], [os.MkdirAll]), the two log exporters
    ([cs.StorePodLogs], [t.StorePipelineRuns]) and the diagnostic sink
    [GinkgoWriter]. *)

Module logs.

Class Host (W : Type) := {
  (** [wd, _ := os.Getwd()]: the error is dropped by the caller. *)
  Getwd : W → string;
  (** [utils.GetEnv(key, defaultVal)], declared in package [utils]. *)
  GetEnv : string → string → W → string;
  (** [os.MkdirAll(path, perm)] *)
  MkdirAll : string → Z → W → option error * W;
  (** [cs.StorePodLogs(testNamespace, jobName, testLogsDir)] *)
  StorePodLogs : string → string → string → W → option error * W;
  (** [t.StorePipelineRuns(testNamespace, cs)] *)
  StorePipelineRuns : string → W → option error * W
}.

Inductive Event : Type :=
| EvMkdirAll (path : string) (perm : Z) (r : option error)
| EvStorePodLogs (testNamespace jobName testLogsDir : string) (r : option error)
| EvStorePipelineRuns (testNamespace : string) (r : option error).

Record State (W : Type) := mkState {
  world : W;
  (** what has been printed to [GinkgoWriter] *)
  GinkgoWriter : list string;
  trace : list Event
}.
Arguments mkState {W} _ _ _.
Arguments world {W} _.
Arguments GinkgoWriter {W} _.
Arguments trace {W} _.

(** [os.ModePerm], octal 0777. *)
Definition ModePerm : Z := 511.

Section Logs.
Context {W : Type} `{!Host W}.

Definition call {A} (op : W → A * W) (ev : A → Event) : M (State W) A :=
  fun s => let (r, w) := op (world s) in
           (r, mkState w (GinkgoWriter s) (trace s ++ [ev r])).

(** [GinkgoWriter.Printf(format, err)] with the format already applied. *)
Definition Printf (line : string) : M (State W) unit :=
  fun s => (tt, mkState (world s) (GinkgoWriter s ++ [line]) (trace s)).

(** The directory computed at lines 15-17. *)
Definition testLogsDir (testNamespace : string) (w : W) : string :=
  let wd := Getwd w in
  let artifactDir := GetEnv "ARTIFACT_DIR" (wd +:+ "/tmp") w in
  artifactDir +:+ "/" +:+ testNamespace.

(** [StoreTestLogs] (lines 14-32); the two controllers [cs] and [t] are the
    exporters of the [Host] instance. *)
Definition StoreTestLogs (testNamespace jobName : string) : M (State W) (option error) :=
  dir <- (fun s => (testLogsDir testNamespace (world s), s)) ;;
  err <- call (MkdirAll dir ModePerm) (EvMkdirAll dir ModePerm) ;;
  match err with
  | Some err => ret (Some err)
  | None =>
      err <- call (StorePodLogs testNamespace jobName dir)
                  (EvStorePodLogs testNamespace jobName dir) ;;
      match err with
      | Some err => Printf ("Failed to store pod logs: " +:+ Error err)
      | None => ret tt
      end ;;
      err <- call (StorePipelineRuns testNamespace) (EvStorePipelineRuns testNamespace) ;;
      match err with
      | Some err => Printf ("Failed to store pipelineRun logs: " +:+ Error err)
      | None => ret tt
      end ;;
      ret None
  end.

End Logs.

(** The line [GinkgoWriter] receives for the outcome [r] of an exporter. *)
Definition notice (prefix : string) (r : option error) : list string :=
  match r with
  | Some err => [prefix +:+ Error err]
  | None => []
  end.

End logs.

(** ** A reference cluster

    An in-memory API server in the manner of controller-runtime's fake
    client: objects are stored under (namespace, name).  It is used to run
    the helpers on concrete inputs. *)

Module fake.

Record Cluster := mkCluster {
  objects : gmap (string * string) Application;
  (** whether the application controller is running: it fills in the
      devfile of every stored application while the caller sleeps *)
  reconciling : bool;
  (** whether the API server is unreachable *)
  down : bool
}.

Definition keyOf (a : Application) : string * string :=
  (Namespace (Meta a), Name (Meta a)).

Definition notFound : error :=
  StatusError StatusReasonNotFound "applications.appstudio.redhat.com not found".
Definition alreadyExists : error :=
  StatusError StatusReasonAlreadyExists "applications.appstudio.redhat.com already exists".
Definition unreachable : error := errorString "connection refused".

Definition withObjects (m : gmap (string * string) Application) (c : Cluster) : Cluster :=
  mkCluster m (reconciling c) (down c).

Definition serveGet (key : NamespacedName) (c : Cluster) : result Application * Cluster :=
  if down c then (Err unreachable, c)
  else match objects c !! (KeyNamespace key, KeyName key) with
       | Some a => (Ok a, c)
       | None => (Err notFound, c)
       end.

Definition serveCreate (a : Application) (c : Cluster) : result Application * Cluster :=
  if down c then (Err unreachable, c)
  else match objects c !! keyOf a with
       | Some _ => (Err alreadyExists, c)
       | None => (Ok a, withObjects (<[keyOf a := a]> (objects c)) c)
       end.

Definition serveDelete (a : Application) (c : Cluster) : option error * Cluster :=
  if down c then (Some unreachable, c)
  else match objects c !! keyOf a with
       | Some _ => (None, withObjects (delete (keyOf a) (objects c)) c)
       | None => (Some notFound, c)
       end.

Definition inNamespace (ns : string) (a : Application) : bool :=
  String.eqb (Namespace (Meta a)) ns.

Definition serveDeleteAllOf (ns : string) (c : Cluster) : option error * Cluster :=
  if down c then (Some unreachable, c)
  else (None, withObjects (filter (λ kv, inNamespace ns kv.2 = false) (objects c)) c).

Definition serveList (ns : string) (c : Cluster) : result (list Application) * Cluster :=
  if down c then (Err unreachable, c)
  else (Ok (List.filter (inNamespace ns) (snd <$> map_to_list (objects c))), c).

Definition reconcile (a : Application) : Application :=
  if String.eqb (Devfile (Status a)) ""
  then setStatus {| Devfile := "schemaVersion: 2.2.0" |} a
  else a.

Definition pass (d : time.Duration) (c : Cluster) : Cluster :=
  if reconciling c then withObjects (reconcile <$> objects c) c else c.

#[export] Instance client : rclient.Client Cluster :=
  {| rclient.Get := serveGet; rclient.Create := serveCreate;
     rclient.Delete := serveDelete;
     rclient.DeleteAllOf := serveDeleteAllOf; rclient.List := serveList |}.

#[export] Instance clock : time.Clock Cluster := {| time.Sleep := pass |}.

(** A machine that has just started against cluster [c]. *)
Definition start (c : Cluster) : State Cluster := mkState [] c [].

Definition empty : Cluster := mkCluster ∅ false false.

Definition app (name namespace devfile : string) : Application :=
  {| Meta := {| Name := name; Namespace := namespace |};
     Spec := {| DisplayName := name |};
     Status := {| Devfile := devfile |} |}.

(** One application, [demo] in namespace [ns1], not reconciled and with no
    controller running. *)
Definition stalled : Cluster :=
  mkCluster {[ ("ns1", "demo") := app "demo" "ns1" "" ]} false false.

(** Polling once a second. *)
Definition everySecond : positive := 1000000000.

(** A stand-in for [utils.ToPrettyJSONString]. *)
Definition json (a : Application) : string :=
  "{name: " +:+ Name (Meta a) +:+ ", namespace: " +:+ Namespace (Meta a)
  +:+ ", devfile: " +:+ Devfile (Status a) +:+ "}".

(** A host whose file system holds the regular files [files]; creating a
    directory fails at a path that is one of them.  [broken] is whether the
    exporters fail. *)
Record Host := mkHost {
  cwd : string;
  artifactDir : option string;
  files : list string;
  broken : bool
}.

Definition mkdirAll (path : string) (perm : Z) (h : Host) : option error * Host :=
  if bool_decide (path ∈ files h)
  then (Some (errorString ("mkdir " +:+ path +:+ ": not a directory")), h)
  else (None, h).

Definition export (what : string) (h : Host) : option error * Host :=
  if broken h then (Some (errorString (what +:+ ": forbidden")), h) else (None, h).

#[export] Instance host : logs.Host Host :=
  {| logs.Getwd := cwd;
     logs.GetEnv := λ _ def h, default def (artifactDir h);
     logs.MkdirAll := mkdirAll;
     logs.StorePodLogs := λ _ _ _, export "pods";
     logs.StorePipelineRuns := λ _, export "pipelineruns" |}.

End fake.

(** ** Observations on traces *)

(** Total time spent sleeping in a run. *)
Fixpoint slept (evs : list Event) : Z :=
  match evs with
  | [] => 0
  | EvSleep d :: rest => d + slept rest
  | _ :: rest => slept rest
  end.

Definition isSleep (ev : Event) : bool :=
  match ev with
  | EvSleep _ => true
  | _ => false
  end.

(** The events of one poll loop with [ticks] intervals before its deadline,
    and its outcome.  [obs ev b] says that [ev] is what one evaluation of
    the condition does and that the condition then answers [b]. *)
Inductive pollRun (obs : Event → bool → Prop) (interval : positive)
  : nat → list Event → option error → Prop :=
| pollRun_done ticks ev :
    obs ev true →
    pollRun obs interval ticks [ev] None
| pollRun_timeout ev :
    obs ev false →
    pollRun obs interval 0 [ev] (Some utils.ErrWaitTimeout)
| pollRun_retry ticks ev evs r :
    obs ev false →
    pollRun obs interval ticks evs r →
    pollRun obs interval (S ticks) (ev :: EvSleep (Z.pos interval) :: evs) r.

(** What [ApplicationDevfilePresent] answers to the outcome of its lookup. *)
Definition devfilePresent (r : result Application) : bool :=
  match r with
  | Ok a => negb (String.eqb (Devfile (Status a)) "")
  | Err _ => false
  end.

(** What [ApplicationDeleted] answers to the outcome of its lookup. *)
Definition lookupNotFound (r : result Application) : bool :=
  match r with
  | Ok _ => false
  | Err e => IsNotFound e
  end.

(** What the list condition answers to the outcome of its listing. *)
Definition listedNone (r : result (list Application)) : bool :=
  match r with
  | Ok items => Nat.eqb (length items) 0
  | Err _ => false
  end.

Definition obsDevfile (key : NamespacedName) (ev : Event) (b : bool) : Prop :=
  ∃ r, ev = EvGet key r ∧ b = devfilePresent r.

Definition obsDeleted (key : NamespacedName) (ev : Event) (b : bool) : Prop :=
  ∃ r, ev = EvGet key r ∧ b = lookupNotFound r.

Definition obsListEmpty (ns : string) (ev : Event) (b : bool) : Prop :=
  ∃ r, ev = EvList ns r ∧ b = listedNone r.

(** The object literal submitted by [CreateApplicationWithTimeout]
    (lines 77-85). *)
Definition requested (name namespace : string) : Application :=
  {| Meta := {| Name := name; Namespace := namespace |};
     Spec := {| DisplayName := name |};
     Status := {| Devfile := "" |} |}.

(** The object literal submitted by [DeleteApplication] (lines 103-108). *)
Definition doomed (name namespace : string) : Application :=
  {| Meta := {| Name := name; Namespace := namespace |};
     Spec := {| DisplayName := "" |};
     Status := {| Devfile := "" |} |}.

(** The test at line 110: whether the outcome of the delete submission makes
    [DeleteApplication] return at once. *)
Definition deleteRejected (submission : option error) (reportErrorOnNotFound : bool)
  : bool :=
  match submission with
  | Some err => negb (IsNotFound err) || (IsNotFound err && reportErrorOnNotFound)
  | None => false
  end.

(** While a loop runs, [application] stays allocated and keeps its name and
    namespace. *)
Definition pointsTo {W : Type} (application : ptr) (key : NamespacedName)
    (s : State W) : Prop :=
  (application < length (heap s))%nat
  ∧ ObjectKeyFromObject (deref (heap s) application) = key.

(** The status [ApplicationDevfilePresent] has last copied into its
    application after the calls [evs], starting from status [init]: that of
    the most recent lookup that succeeded. *)
Fixpoint lastSeenStatus (evs : list Event) (init : ApplicationStatus)
  : ApplicationStatus :=
  match evs with
  | [] => init
  | EvGet _ (Ok a) :: rest => lastSeenStatus rest (Status a)
  | _ :: rest => lastSeenStatus rest init
  end.

(** [ev] is a sleep of one interval or a lookup under [key]. *)
Definition sleepOrLookup (interval : positive) (key : NamespacedName) (ev : Event)
  : Prop :=
  ev = EvSleep (Z.pos interval) ∨ ∃ r, ev = EvGet key r.


(** [ev] is a lookup under [key] that failed with not-found. *)
Definition lookupMissed (key : NamespacedName) (ev : Event) : Prop :=
  ∃ e, ev = EvGet key (Err e) ∧ IsNotFound e = true.

(** ** Durations *)

Lemma one_minute_ns : time.mul 1 time.Minute = 60000000000.
Proof. reflexivity. Qed.

Lemma ten_minutes_ns : time.mul time.Minute 10 = 600000000000.
Proof. reflexivity. Qed.

Section PollTheory.
Context {W : Type} {clock : time.Clock W}.
Variable interval : positive.

Lemma ticksUntil_nonpos timeout :
  timeout <= 0 → utils.ticksUntil interval timeout = 0%nat.
Proof.
  intros Hle. unfold utils.ticksUntil.
  assert ((timeout + Z.pos interval - 1) / Z.pos interval <= 0); [|lia].
  assert ((timeout + Z.pos interval - 1) / Z.pos interval < 1); [|lia].
  apply Z.div_lt_upper_bound; lia.
Qed.

(** The deadline falls in the last of the [ticksUntil timeout] intervals. *)
Lemma ticksUntil_spec timeout :
  0 < timeout →
  let n := Z.of_nat (utils.ticksUntil interval timeout) in
  (n - 1) * Z.pos interval < timeout <= n * Z.pos interval.
Proof.
  intros Hpos. unfold utils.ticksUntil. cbv zeta.
  set (i := Z.pos interval).
  assert (Hi : 0 < i) by (unfold i; lia).
  assert (Hq : 0 <= (timeout + i - 1) / i) by (apply Z.div_pos; lia).
  rewrite Z2Nat.id by exact Hq.
  pose proof (Z.div_mod (timeout + i - 1) i ltac:(lia)) as Hdm.
  pose proof (Z.mod_pos_bound (timeout + i - 1) i Hi) as Hm.
  nia.
Qed.

Lemma pollRun_outcome obs n evs r :
  pollRun obs interval n evs r → r = None ∨ r = Some utils.ErrWaitTimeout.
Proof. induction 1; auto. Qed.

Lemma pollRun_starts obs n evs r :
  pollRun obs interval n evs r → ∃ ev b rest, evs = ev :: rest ∧ obs ev b.
Proof. destruct 1; eauto 6. Qed.

Lemma pollRun_success obs n evs :
  pollRun obs interval n evs None →
  ∃ pre ev, evs = pre ++ [ev] ∧ obs ev true.
Proof.
  intros H. remember None as r eqn:Hr. induction H as [n ev Hev|ev Hev|n ev evs r Hev Hrun IH].
  - exists [], ev. auto.
  - discriminate.
  - destruct (IH Hr) as (pre & ev' & -> & Hev').
    exists (ev :: EvSleep (Z.pos interval) :: pre), ev'. auto.
Qed.

Lemma slept_skip ev rest : isSleep ev = false → slept (ev :: rest) = slept rest.
Proof. destruct ev; simpl; congruence. Qed.

Lemma obs_not_sleep (obs : Event → bool → Prop) ev b :
  (∀ d b, ¬ obs (EvSleep d) b) → obs ev b → isSleep ev = false.
Proof. intros Hns Hev. destruct ev; try reflexivity. destruct (Hns _ _ Hev). Qed.

Lemma pollRun_slept_le obs n evs r :
  (∀ d b, ¬ obs (EvSleep d) b) →
  pollRun obs interval n evs r → slept evs <= Z.of_nat n * Z.pos interval.
Proof.
  intros Hns. induction 1 as [n ev Hev|ev Hev|n ev evs r Hev Hrun IH];
    rewrite (slept_skip ev) by (eapply obs_not_sleep; eauto); cbn [slept]; lia.
Qed.

Lemma pollRun_expired obs n evs e :
  (∀ d b, ¬ obs (EvSleep d) b) →
  pollRun obs interval n evs (Some e) →
  e = utils.ErrWaitTimeout
  ∧ slept evs = Z.of_nat n * Z.pos interval
  ∧ Forall (λ ev, isSleep ev = true ∨ obs ev false) evs.
Proof.
  intros Hns H. remember (Some e) as r eqn:Hr.
  induction H as [n ev Hev|ev Hev|n ev evs r Hev Hrun IH].
  - discriminate.
  - injection Hr as <-. split; [reflexivity|]. split.
    + rewrite (slept_skip ev) by (eapply obs_not_sleep; eauto). reflexivity.
    + constructor; [right; exact Hev|constructor].
  - destruct (IH Hr) as (-> & Hs & Hall). split; [reflexivity|]. split.
    + rewrite (slept_skip ev) by (eapply obs_not_sleep; eauto). cbn [slept]. lia.
    + constructor; [auto|]. constructor; [left; reflexivity|]. exact Hall.
Qed.

(** One turn of the loop. *)
Lemma poll_unfold (cond : utils.ConditionFunc) n s :
  utils.poll interval cond n s =
  match cond s with
  | ((_, Some e), s') => (Some e, s')
  | ((true, None), s') => (None, s')
  | ((false, None), s') =>
      match n with
      | O => (Some utils.ErrWaitTimeout, s')
      | S k => utils.poll interval cond k (snd (utils.sleep (Z.pos interval) s'))
      end
  end.
Proof.
  destruct n; simpl; unfold bind; destruct (cond s) as [[[] []] ?]; reflexivity.
Qed.

(** The loop of [WaitUntil] performs a [pollRun], for every condition that
    never fails and does one recorded call per evaluation. *)
Lemma poll_run (cond : utils.ConditionFunc) (I : State W → Prop)
    (obs : Event → bool → Prop) :
  (∀ s, I s → ∃ ev b, fst (cond s) = (b, None)
                     ∧ trace (snd (cond s)) = trace s ++ [ev]
                     ∧ obs ev b ∧ I (snd (cond s))) →
  (∀ d s, I s → I (snd (utils.sleep d s))) →
  ∀ n s, I s →
  ∃ evs, trace (snd (utils.poll interval cond n s)) = trace s ++ evs
       ∧ pollRun obs interval n evs (fst (utils.poll interval cond n s))
       ∧ I (snd (utils.poll interval cond n s)).
Proof.
  intros Hcond Hsleep n. induction n as [|n IH]; intros s Hs;
    destruct (Hcond s Hs) as (ev & b & Hr & Ht & Hobs & HI);
    rewrite poll_unfold; destruct (cond s) as [[d oe] s'];
    cbn [fst snd] in *; injection Hr as -> ->; destruct b.
  - exists [ev]. cbn [fst snd]. split; [exact Ht|]. split; [by constructor|exact HI].
  - exists [ev]. cbn [fst snd]. split; [exact Ht|]. split; [by constructor|exact HI].
  - exists [ev]. cbn [fst snd]. split; [exact Ht|]. split; [by constructor|exact HI].
  - destruct (IH _ (Hsleep (Z.pos interval) s' HI)) as (evs & Ht2 & Hrun & HI2).
    exists (ev :: EvSleep (Z.pos interval) :: evs). split.
    + rewrite Ht2. cbn [utils.sleep snd trace]. rewrite Ht, <- !app_assoc. reflexivity.
    + split; [by constructor|exact HI2].
Qed.

End PollTheory.

(** ** The heap *)

Lemma deref_app_l h a p : (p < length h)%nat → deref (h ++ [a]) p = deref h p.
Proof. intros Hp. unfold deref. by rewrite lookup_app_l. Qed.

Lemma deref_fresh h a : deref (h ++ [a]) (length h) = a.
Proof. unfold deref. by rewrite list_lookup_middle. Qed.

Lemma deref_insert h a p : (p < length h)%nat → deref (<[p := a]> h) p = a.
Proof. intros Hp. unfold deref. by rewrite list_lookup_insert_eq. Qed.

Lemma insert_fresh (h : list Application) a b : <[length h := b]> (h ++ [a]) = h ++ [b].
Proof.
  rewrite insert_app_r_alt by lia. by rewrite Nat.sub_diag.
Qed.

Section HasTheory.
Context {W : Type} {client : rclient.Client W} {clock : time.Clock W}.
Variable interval : positive.
Variable json : Application → string.

(** *** Lookups *)

Lemma GetApplication_run name namespace (s : State W) :
  has.GetApplication name namespace s =
  let key := {| KeyName := name; KeyNamespace := namespace |} in
  match rclient.Get key (world s) with
  | (Ok a, w) =>
      (Ok (length (heap s)), mkState (heap s ++ [a]) w (trace s ++ [EvGet key (Ok a)]))
  | (Err e, w) =>
      (Err e, mkState (heap s ++ [zeroApplication]) w (trace s ++ [EvGet key (Err e)]))
  end.
Proof.
  unfold has.GetApplication, has.kubeGet, bind, new, call, store, ret. cbn.
  destruct (rclient.Get _ (world s)) as [[a|e] w]; cbn; [|reflexivity].
  by rewrite insert_fresh.
Qed.

Lemma ApplicationDevfilePresent_run application (s : State W) :
  (application < length (heap s))%nat →
  let this := deref (heap s) application in
  let key := ObjectKeyFromObject this in
  has.ApplicationDevfilePresent application s =
  match rclient.Get key (world s) with
  | (Ok a, w) =>
      ((devfilePresent (Ok a), None),
       mkState (<[application := setStatus (Status a) this]> (heap s ++ [a])) w
               (trace s ++ [EvGet key (Ok a)]))
  | (Err e, w) =>
      ((false, None),
       mkState (heap s ++ [zeroApplication]) w (trace s ++ [EvGet key (Err e)]))
  end.
Proof.
  intros Hp. cbv zeta.
  unfold has.ApplicationDevfilePresent, bind at 1, load at 1. cbn [fst snd].
  unfold bind at 1. rewrite GetApplication_run. cbv zeta.
  unfold ObjectKeyFromObject.
  destruct (rclient.Get _ (world s)) as [[a|e] w]; [|reflexivity].
  unfold bind, load, store, ret. cbn [heap world trace].
  rewrite deref_fresh, (deref_app_l _ _ _ Hp).
  rewrite deref_insert by (rewrite length_app; simpl; lia).
  reflexivity.
Qed.

Lemma ApplicationDeleted_run application (s : State W) :
  let this := deref (heap s) application in
  let key := ObjectKeyFromObject this in
  has.ApplicationDeleted application s =
  match rclient.Get key (world s) with
  | (r, w) =>
      ((lookupNotFound r, None),
       mkState (heap s ++ [match r with Ok a => a | Err _ => zeroApplication end]) w
               (trace s ++ [EvGet key r]))
  end.
Proof.
  cbv zeta.
  unfold has.ApplicationDeleted, bind at 1, load at 1. cbn [fst snd].
  unfold bind at 1. rewrite GetApplication_run. cbv zeta.
  unfold ObjectKeyFromObject.
  destruct (rclient.Get _ (world s)) as [[a|e] w]; reflexivity.
Qed.

Lemma applicationListEmpty_run namespace (s : State W) :
  has.applicationListEmpty namespace s =
  match rclient.List namespace (world s) with
  | (r, w) => ((listedNone r, None),
               mkState (heap s) w (trace s ++ [EvList namespace r]))
  end.
Proof.
  unfold has.applicationListEmpty, has.kubeList, bind, call, ret.
  destruct (rclient.List _ (world s)) as [[items|e] w]; reflexivity.
Qed.

Lemma refreshApplicationForErrorDebug_run application (s : State W) :
  (application < length (heap s))%nat →
  let this := deref (heap s) application in
  let key := ObjectKeyFromObject this in
  has.refreshApplicationForErrorDebug application s =
  match rclient.Get key (world s) with
  | (Ok a, w) =>
      (length (heap s), mkState (heap s ++ [a]) w (trace s ++ [EvGet key (Ok a)]))
  | (Err e, w) =>
      (application,
       mkState (heap s ++ [zeroApplication]) w (trace s ++ [EvGet key (Err e)]))
  end.
Proof.
  intros Hp. cbv zeta.
  unfold has.refreshApplicationForErrorDebug, has.kubeGet, bind, new, load, call, store, ret.
  cbn [heap world trace]. rewrite (deref_app_l _ _ _ Hp).
  destruct (rclient.Get _ (world s)) as [[a|e] w]; cbn; [|reflexivity].
  by rewrite insert_fresh.
Qed.

(** One readiness check and the diagnostic re-fetch, by what they leave
    behind. *)
Lemma ApplicationDevfilePresent_step application (s : State W) r w :
  (application < length (heap s))%nat →
  rclient.Get (ObjectKeyFromObject (deref (heap s) application)) (world s) = (r, w) →
  ∃ h',
    has.ApplicationDevfilePresent application s =
    ((devfilePresent r, None),
     mkState h' w (trace s ++ [EvGet (ObjectKeyFromObject (deref (heap s) application)) r]))
    ∧ (application < length h')%nat
    ∧ deref h' application = match r with
                             | Ok a => setStatus (Status a) (deref (heap s) application)
                             | Err _ => deref (heap s) application
                             end.
Proof.
  intros Hp Hg. rewrite (ApplicationDevfilePresent_run _ _ Hp). cbv zeta. rewrite Hg.
  assert (Hp' : ∀ a, (application < length (heap s ++ [a]))%nat)
    by (intros a; rewrite length_app; simpl; lia).
  destruct r as [a|e]; eexists; (split; [reflexivity|]); split.
  - by rewrite length_insert.
  - by rewrite deref_insert.
  - done.
  - by rewrite deref_app_l.
Qed.

Lemma refreshApplicationForErrorDebug_step application (s : State W) r w :
  (application < length (heap s))%nat →
  rclient.Get (ObjectKeyFromObject (deref (heap s) application)) (world s) = (r, w) →
  ∃ last h',
    has.refreshApplicationForErrorDebug application s =
    (last,
     mkState h' w (trace s ++ [EvGet (ObjectKeyFromObject (deref (heap s) application)) r]))
    ∧ deref h' last = match r with
                      | Ok fetched => fetched
                      | Err _ => deref (heap s) application
                      end.
Proof.
  intros Hp Hg. rewrite (refreshApplicationForErrorDebug_run _ _ Hp). cbv zeta. rewrite Hg.
  destruct r as [a|e]; eexists _, _; (split; [reflexivity|]).
  - by rewrite deref_fresh.
  - by rewrite deref_app_l.
Qed.

(** *** The three poll loops *)

Lemma pointsTo_sleep application key d s :
  pointsTo application key s → pointsTo application key (snd (utils.sleep d s)).
Proof. intros H. exact H. Qed.

Lemma obsDevfile_not_sleep key d b : ¬ obsDevfile key (EvSleep d) b.
Proof. intros (r & Hr & _). discriminate. Qed.

Lemma obsDeleted_not_sleep key d b : ¬ obsDeleted key (EvSleep d) b.
Proof. intros (r & Hr & _). discriminate. Qed.

Lemma obsListEmpty_not_sleep ns d b : ¬ obsListEmpty ns (EvSleep d) b.
Proof. intros (r & Hr & _). discriminate. Qed.

Lemma devfile_poll_run application key n (s : State W) :
  pointsTo application key s →
  let out := utils.poll interval (has.ApplicationDevfilePresent application) n s in
  ∃ evs, trace (snd out) = trace s ++ evs
       ∧ pollRun (obsDevfile key) interval n evs (fst out)
       ∧ pointsTo application key (snd out).
Proof.
  intros Hs. apply (poll_run interval _ (pointsTo application key)); [|by auto using pointsTo_sleep|exact Hs].
  clear s Hs. intros s [Hp Hkey].
  rewrite (ApplicationDevfilePresent_run _ _ Hp). cbv zeta. rewrite Hkey.
  destruct (rclient.Get key (world s)) as [[a|e] w]; cbn [fst snd trace heap].
  - exists (EvGet key (Ok a)), (devfilePresent (Ok a)).
    split; [reflexivity|]. split; [reflexivity|]. split; [by exists (Ok a)|]. unfold pointsTo; cbn [heap].
    assert (Hp' : (application < length (heap s ++ [a]))%nat)
      by (rewrite length_app; simpl; lia).
    split; [by rewrite length_insert|].
    rewrite (deref_insert _ _ _ Hp'). exact Hkey.
  - exists (EvGet key (Err e)), false.
    split; [reflexivity|]. split; [reflexivity|]. split; [by exists (Err e)|]. unfold pointsTo; cbn [heap].
    split; [rewrite length_app; simpl; lia|].
    by rewrite deref_app_l.
Qed.

Lemma deleted_poll_run application key n (s : State W) :
  pointsTo application key s →
  let out := utils.poll interval (has.ApplicationDeleted application) n s in
  ∃ evs, trace (snd out) = trace s ++ evs
       ∧ pollRun (obsDeleted key) interval n evs (fst out)
       ∧ pointsTo application key (snd out).
Proof.
  intros Hs. apply (poll_run interval _ (pointsTo application key)); [|by auto using pointsTo_sleep|exact Hs].
  clear s Hs. intros s [Hp Hkey].
  rewrite ApplicationDeleted_run. cbv zeta. rewrite Hkey.
  destruct (rclient.Get key (world s)) as [r w]; cbn [fst snd trace heap].
  exists (EvGet key r), (lookupNotFound r).
  split; [reflexivity|]. split; [reflexivity|]. split; [by exists r|]. unfold pointsTo; cbn [heap].
  split; [rewrite length_app; simpl; lia|].
  by rewrite deref_app_l.
Qed.

Lemma listEmpty_poll_run namespace n (s : State W) :
  let out := utils.poll interval (has.applicationListEmpty namespace) n s in
  ∃ evs, trace (snd out) = trace s ++ evs
       ∧ pollRun (obsListEmpty namespace) interval n evs (fst out).
Proof.
  destruct (poll_run interval (has.applicationListEmpty namespace) (λ _, True)
              (obsListEmpty namespace)) with (n := n) (s := s) as (evs & Ht & Hrun & _);
    [|done|done|by exists evs].
  clear s. intros s _. rewrite applicationListEmpty_run.
  destruct (rclient.List namespace (world s)) as [r w]; cbn [fst snd trace].
  exists (EvList namespace r), (listedNone r).
  split; [reflexivity|]. split; [reflexivity|]. split; [by exists r|done].
Qed.

(** *** Creation *)

Lemma string_app_assoc (a b c : string) : (a +:+ b) +:+ c = a +:+ (b +:+ c).
Proof.
  induction a as [|x a IH]; [reflexivity|].
  change (String x ((a +:+ b) +:+ c) = String x (a +:+ (b +:+ c))).
  by rewrite IH.
Qed.

Lemma createTimeoutMessage_ends_with_json name namespace err j :
  ∃ prefix, has.createTimeoutMessage name namespace err j = prefix +:+ j.
Proof.
  unfold has.createTimeoutMessage. eexists.
  rewrite <- !string_app_assoc. reflexivity.
Qed.

(** The state in which the readiness poll starts. *)
Lemma CreateApplicationWithTimeout_submitted name namespace timeout (s : State W) created w1 :
  rclient.Create (requested name namespace) (world s) = (Ok created, w1) →
  let application := length (heap s) in
  let s1 := mkState (heap s ++ [created]) w1
                    (trace s ++ [EvCreate (requested name namespace) (Ok created)]) in
  has.CreateApplicationWithTimeout interval json name namespace timeout s =
  match utils.WaitUntil interval (has.ApplicationDevfilePresent application) timeout s1 with
  | (None, s2) => ((Some application, None), s2)
  | (Some err, s2) =>
      match has.refreshApplicationForErrorDebug application s2 with
      | (last, s3) =>
          ((None, Some (errorString (has.createTimeoutMessage name namespace err
                                       (json (deref (heap s3) last))))), s3)
      end
  end.
Proof.
  intros Hc. cbv zeta.
  unfold has.CreateApplicationWithTimeout, has.kubeCreate.
  unfold bind at 1, new at 1. cbn [heap world trace].
  unfold bind at 1. unfold bind at 1, load at 1. cbn [heap world trace fst snd].
  rewrite deref_fresh. fold (requested name namespace).
  unfold bind at 1, call at 1. cbn [heap world trace]. rewrite Hc.
  unfold bind at 1, store at 1. cbn [heap world trace ret]. rewrite insert_fresh.
  unfold ret at 1. unfold bind at 1.
  destruct (utils.WaitUntil _ _ _ _) as [[err|] s2]; [|reflexivity].
  unfold bind at 1.
  destruct (has.refreshApplicationForErrorDebug _ s2) as [last s3].
  reflexivity.
Qed.

Lemma pointsTo_submitted (s : State W) created (w1 : W) evs :
  pointsTo (length (heap s)) (ObjectKeyFromObject created)
           (mkState (heap s ++ [created]) w1 evs).
Proof.
  split; cbn [heap].
  - rewrite length_app. simpl. lia.
  - by rewrite deref_fresh.
Qed.

Lemma slept_app evs1 evs2 : slept (evs1 ++ evs2) = slept evs1 + slept evs2.
Proof.
  induction evs1 as [|ev evs1 IH]; [reflexivity|].
  destruct ev; cbn [app slept]; lia.
Qed.

Lemma ticks_before_deadline timeout :
  Z.of_nat (utils.ticksUntil interval timeout) * Z.pos interval
  < Z.max timeout 0 + Z.pos interval.
Proof.
  destruct (Z_lt_le_dec 0 timeout) as [Hpos|Hle].
  - pose proof (ticksUntil_spec interval timeout Hpos) as Hspec. cbv zeta in Hspec. lia.
  - rewrite (ticksUntil_nonpos interval timeout Hle). lia.
Qed.

Lemma CreateApplicationWithTimeout_rejected name namespace timeout (s : State W) e w1 :
  rclient.Create (requested name namespace) (world s) = (Err e, w1) →
  has.CreateApplicationWithTimeout interval json name namespace timeout s =
  ((None, Some e),
   mkState (heap s ++ [requested name namespace]) w1
           (trace s ++ [EvCreate (requested name namespace) (Err e)])).
Proof.
  intros Hc.
  unfold has.CreateApplicationWithTimeout, has.kubeCreate, bind, new, load, call.
  cbn [heap world trace fst snd]. rewrite deref_fresh.
  fold (requested name namespace). rewrite Hc. reflexivity.
Qed.

(** However the submission goes, the time slept by one call stays below
    the timeout plus one interval. *)
Lemma CreateApplicationWithTimeout_sleeps name namespace timeout (s : State W) :
  ∃ evs,
    trace (snd (has.CreateApplicationWithTimeout interval json name namespace timeout s))
    = trace s ++ evs
    ∧ slept evs < Z.max timeout 0 + Z.pos interval.
Proof.
  pose proof (ticks_before_deadline timeout) as Hticks.
  destruct (rclient.Create (requested name namespace) (world s)) as [[created|e] w1] eqn:Hc.
  - rewrite (CreateApplicationWithTimeout_submitted _ _ _ _ _ _ Hc). cbv zeta.
    destruct (devfile_poll_run (length (heap s)) (ObjectKeyFromObject created)
                (utils.ticksUntil interval timeout)
                (mkState (heap s ++ [created]) w1
                   (trace s ++ [EvCreate (requested name namespace) (Ok created)])))
      as (evs & Ht & Hrun & Hp2 & Hkey2); [apply pointsTo_submitted|].
    apply pollRun_slept_le in Hrun; [|apply obsDevfile_not_sleep].
    unfold utils.WaitUntil.
    destruct (utils.poll _ _ _ _) as [[err|] s2]; cbn [fst snd trace] in *.
    + rewrite (refreshApplicationForErrorDebug_run _ _ Hp2). cbv zeta.
      destruct (rclient.Get _ (world s2)) as [[a|e] w];
        cbn [snd trace]; rewrite Ht, <- !app_assoc;
        eexists; (split; [reflexivity|]);
        rewrite slept_app, slept_app; cbn [slept]; lia.
    + rewrite Ht, <- app_assoc. eexists. split; [reflexivity|].
      rewrite slept_app. cbn [slept]. lia.
  - rewrite (CreateApplicationWithTimeout_rejected _ _ _ _ _ _ Hc). cbn [snd trace].
    eexists. split; [reflexivity|]. cbn [slept]. lia.
Qed.

(** C2: when the store rejects the submission, its error comes back as it
    is, with a nil application, and the run consists of that one [Create]
    call: no lookup and no sleep, so the poll loop is never entered. *)
Theorem CreateApplicationWithTimeout_submission_error
    name namespace timeout (s : State W) e w1 :
  rclient.Create (requested name namespace) (world s) = (Err e, w1) →
  has.CreateApplicationWithTimeout interval json name namespace timeout s =
  ((None, Some e),
   mkState (heap s ++ [requested name namespace]) w1
           (trace s ++ [EvCreate (requested name namespace) (Err e)])).
Proof.
  intros Hc. unfold has.CreateApplicationWithTimeout.
  unfold bind at 1, new at 1. cbn [heap world trace].
  unfold bind at 1, has.kubeCreate at 1, bind at 1, load at 1.
  cbn [heap world trace fst snd]. rewrite deref_fresh.
  fold (requested name namespace).
  unfold bind at 1, call at 1. cbn [heap world trace]. rewrite Hc.
  reflexivity.
Qed.

(** C3: when the submission succeeds and the readiness poll expires, the
    resource is fetched once more under the key of the submitted object; the
    application returned is nil, and the error message is the formatted
    timeout followed by the JSON of the object fetched or, if that fetch
    failed, of the object as the poll left it. *)
Theorem CreateApplicationWithTimeout_poll_expired
    name namespace timeout (s : State W) created w1 err :
  rclient.Create (requested name namespace) (world s) = (Ok created, w1) →
  let application := length (heap s) in
  let s1 := mkState (heap s ++ [created]) w1
                    (trace s ++ [EvCreate (requested name namespace) (Ok created)]) in
  let polled := utils.WaitUntil interval (has.ApplicationDevfilePresent application)
                                timeout s1 in
  fst polled = Some err →
  let s2 := snd polled in
  let key := ObjectKeyFromObject created in
  let previous := deref (heap s2) application in
  let refetch := rclient.Get key (world s2) in
  let last := match fst refetch with
              | Ok fetched => fetched
              | Err _ => previous
              end in
  let out := has.CreateApplicationWithTimeout interval json name namespace timeout s in
  fst out = (None, Some (errorString
                           (has.createTimeoutMessage name namespace err (json last))))
  ∧ (∃ prefix,
       has.createTimeoutMessage name namespace err (json last) = prefix +:+ json last)
  ∧ trace (snd out) = trace s2 ++ [EvGet key (fst refetch)]
  ∧ world (snd out) = snd refetch
  ∧ err = utils.ErrWaitTimeout.
Proof.
  intros Hc application s1 polled Hpolled s2 key previous refetch last out.
  destruct (devfile_poll_run application key (utils.ticksUntil interval timeout) s1)
    as (evs & Ht & Hrun & Hp2 & Hkey2).
  { apply pointsTo_submitted. }
  fold (utils.WaitUntil interval (has.ApplicationDevfilePresent application) timeout s1) in *.
  fold polled in Ht, Hrun, Hp2, Hkey2. fold s2 in Ht, Hp2, Hkey2.
  assert (Hout : out =
    match has.refreshApplicationForErrorDebug application s2 with
    | (q, s3) => ((None, Some (errorString (has.createTimeoutMessage name namespace err
                                              (json (deref (heap s3) q))))), s3)
    end).
  { unfold out. rewrite (CreateApplicationWithTimeout_submitted _ _ _ _ _ _ Hc).
    cbv zeta. fold application s1 polled.
    destruct polled as [r s2'] eqn:Hp. cbn [fst snd] in *. subst r. reflexivity. }
  rewrite Hout, (refreshApplicationForErrorDebug_run _ _ Hp2). cbv zeta.
  rewrite Hkey2. subst last. fold refetch.
  split; [|split; [apply createTimeoutMessage_ends_with_json|]].
  - destruct refetch as [[a|e] w]; cbn [fst snd heap].
    + by rewrite deref_fresh.
    + by rewrite deref_app_l.
  - split; [|split].
    + by destruct refetch as [[a|e] w].
    + by destruct refetch as [[a|e] w].
    + rewrite Hpolled in Hrun.
      by destruct (pollRun_outcome interval _ _ _ _ Hrun) as [?|[= ->]].
Qed.

(** C8: with a zero or negative timeout, a submission that succeeds and a
    first readiness check that is not satisfied, the call makes exactly
    three requests (the create, the one check, the diagnostic re-fetch),
    never sleeps, and returns the timeout error.  For every timeout the
    time slept is below the timeout plus one interval, so the loop does not
    outlive its deadline. *)
Theorem CreateApplicationWithTimeout_nonpositive_timeout
    name namespace timeout (s : State W) created w1 r w2 :
  timeout <= 0 →
  rclient.Create (requested name namespace) (world s) = (Ok created, w1) →
  let key := ObjectKeyFromObject created in
  rclient.Get key w1 = (r, w2) →
  devfilePresent r = false →
  let refetch := rclient.Get key w2 in
  let previous := match r with
                  | Ok a => setStatus (Status a) created
                  | Err _ => created
                  end in
  let last := match fst refetch with
              | Ok fetched => fetched
              | Err _ => previous
              end in
  let out := has.CreateApplicationWithTimeout interval json name namespace timeout s in
  fst out = (None, Some (errorString
                           (has.createTimeoutMessage name namespace utils.ErrWaitTimeout
                                                     (json last))))
  ∧ trace (snd out) = trace s ++ [EvCreate (requested name namespace) (Ok created);
                                  EvGet key r; EvGet key (fst refetch)]
  ∧ slept [EvCreate (requested name namespace) (Ok created);
           EvGet key r; EvGet key (fst refetch)] = 0
  ∧ ∀ timeout' : time.Duration,
      ∃ evs,
        trace (snd (has.CreateApplicationWithTimeout interval json name namespace
                                                     timeout' s))
        = trace s ++ evs
        ∧ slept evs < Z.max timeout' 0 + Z.pos interval.
Proof.
  intros Hle Hc key Hg Hnot refetch previous last out.
  split; [|split; [|split; [reflexivity|]]];
    [| |intros timeout'; apply CreateApplicationWithTimeout_sleeps].
  all: subst out last previous refetch key.
  all: rewrite (CreateApplicationWithTimeout_submitted _ _ _ _ _ _ Hc);
    cbv zeta; unfold utils.WaitUntil; rewrite (ticksUntil_nonpos interval timeout Hle);
    rewrite poll_unfold.
  all: destruct (ApplicationDevfilePresent_step (length (heap s))
         (mkState (heap s ++ [created]) w1
            (trace s ++ [EvCreate (requested name namespace) (Ok created)])) r w2)
         as (h2 & -> & Hp2 & Hd2);
    [cbn [heap]; rewrite length_app; simpl; lia
    |cbn [heap world]; rewrite deref_fresh; exact Hg|].
  all: cbn [heap world trace] in *; rewrite deref_fresh in *; rewrite Hnot.
  all: cbv beta iota.
  all: destruct (rclient.Get (ObjectKeyFromObject created) w2) as [r' w3] eqn:Hr.
  all: destruct (refreshApplicationForErrorDebug_step (length (heap s))
         (mkState h2 w2
            ((trace s ++ [EvCreate (requested name namespace) (Ok created)])
             ++ [EvGet (ObjectKeyFromObject created) r])) r' w3) as (q & h3 & -> & Hd3);
    [exact Hp2
    |cbn [heap world]; rewrite Hd2;
     replace (ObjectKeyFromObject _) with (ObjectKeyFromObject created)
       by (by destruct r); exact Hr|].
  all: cbn [heap world trace fst snd] in *.
  - rewrite Hd3, Hd2. by destruct r'.
  - rewrite Hd2.
    replace (ObjectKeyFromObject (match r with Ok a => _ | Err _ => _ end))
      with (ObjectKeyFromObject created) by (by destruct r).
    by rewrite <- !app_assoc.
Qed.

(** C9: [CreateApplication] is [CreateApplicationWithTimeout] with a
    timeout of ten minutes, 600000000000 nanoseconds. *)
Theorem CreateApplication_default_timeout name namespace (s : State W) :
  has.CreateApplication interval json name namespace s =
  has.CreateApplicationWithTimeout interval json name namespace 600000000000 s
  ∧ time.mul time.Minute 10 = 10 * 60 * 1000000000.
Proof.
  split.
  - unfold has.CreateApplication. by rewrite ten_minutes_ns.
  - rewrite ten_minutes_ns. lia.
Qed.

(** C4: for every allocated [application], one evaluation of the readiness
    condition never fails; it answers false when the lookup fails, and
    otherwise answers whether the devfile of the application just read is a
    non-empty string.  It makes exactly one lookup, under the name and
    namespace of [application]. *)
Theorem ApplicationDevfilePresent_answer application (s : State W) :
  (application < length (heap s))%nat →
  let this := deref (heap s) application in
  let key := {| KeyName := Name (Meta this); KeyNamespace := Namespace (Meta this) |} in
  let lookup := fst (rclient.Get key (world s)) in
  let out := has.ApplicationDevfilePresent application s in
  snd (fst out) = None
  ∧ match lookup with
    | Err _ => fst out = (false, None)
    | Ok app => ∃ d, fst out = (d, None) ∧ (d = true ↔ Devfile (Status app) ≠ "")
    end
  ∧ trace (snd out) = trace s ++ [EvGet key lookup].
Proof.
  intros Hp this key lookup out. subst out lookup.
  rewrite (ApplicationDevfilePresent_run _ _ Hp). cbv zeta.
  fold this. change (ObjectKeyFromObject this) with key.
  destruct (rclient.Get key (world s)) as [[app|e] w]; cbn [fst snd trace].
  - split; [reflexivity|]. split; [|reflexivity].
    exists (devfilePresent (Ok app)). split; [reflexivity|].
    unfold devfilePresent. rewrite negb_true_iff. apply String.eqb_neq.
  - by repeat split.
Qed.

(** *** Deletion *)

Lemma DeleteApplication_run name namespace report (s : State W) r w1 :
  rclient.Delete (doomed name namespace) (world s) = (r, w1) →
  let s1 := mkState (heap s ++ [doomed name namespace]) w1
                    (trace s ++ [EvDelete (doomed name namespace) r]) in
  has.DeleteApplication interval name namespace report s =
  if deleteRejected r report
  then (Some (errorString ("error deleting an application: "
                           +:+ match r with Some e => Error e | None => "" end)), s1)
  else utils.WaitUntil interval (has.ApplicationDeleted (length (heap s))) 60000000000 s1.
Proof.
  intros Hd. cbv zeta.
  unfold has.DeleteApplication, has.kubeDelete.
  unfold bind at 1, new at 1. cbn [heap world trace].
  unfold bind at 1. unfold bind at 1, load at 1. cbn [heap world trace fst snd].
  rewrite deref_fresh. fold (doomed name namespace).
  unfold call. cbn [heap world trace]. rewrite Hd.
  rewrite one_minute_ns.
  unfold deleteRejected. destruct r as [e|]; cbv beta iota zeta; [|reflexivity].
  destruct (negb (IsNotFound e) || _); reflexivity.
Qed.

Lemma pointsTo_doomed (s : State W) name namespace (w1 : W) evs :
  pointsTo (length (heap s)) {| KeyName := name; KeyNamespace := namespace |}
           (mkState (heap s ++ [doomed name namespace]) w1 evs).
Proof.
  split; cbn [heap].
  - rewrite length_app. simpl. lia.
  - by rewrite deref_fresh.
Qed.

Lemma obsDeleted_true key ev :
  obsDeleted key ev true → ∃ e, ev = EvGet key (Err e) ∧ IsNotFound e = true.
Proof.
  intros ([a|e] & -> & Hb); simpl in Hb; [discriminate|]. by exists e.
Qed.

Lemma poll_deleted_at_once application key n (s : State W) e w :
  pointsTo application key s →
  rclient.Get key (world s) = (Err e, w) →
  IsNotFound e = true →
  utils.poll interval (has.ApplicationDeleted application) n s =
  (None, mkState (heap s ++ [zeroApplication]) w (trace s ++ [EvGet key (Err e)])).
Proof.
  intros [Hp Hkey] Hg Hnf.
  rewrite poll_unfold, ApplicationDeleted_run. cbv zeta.
  rewrite Hkey, Hg. cbn [lookupNotFound]. by rewrite Hnf.
Qed.

(** The absence poll that follows a submission that was not rejected. *)
Lemma DeleteApplication_polls name namespace report (s : State W) r w1 :
  rclient.Delete (doomed name namespace) (world s) = (r, w1) →
  deleteRejected r report = false →
  let out := has.DeleteApplication interval name namespace report s in
  ∃ evs,
    trace (snd out) = trace s ++ EvDelete (doomed name namespace) r :: evs
    ∧ pollRun (obsDeleted {| KeyName := name; KeyNamespace := namespace |}) interval
              (utils.ticksUntil interval 60000000000) evs (fst out).
Proof.
  intros Hd Hrej. cbv zeta.
  rewrite (DeleteApplication_run _ _ _ _ _ _ Hd), Hrej. cbv zeta.
  destruct (deleted_poll_run (length (heap s))
              {| KeyName := name; KeyNamespace := namespace |}
              (utils.ticksUntil interval 60000000000)
              (mkState (heap s ++ [doomed name namespace]) w1
                       (trace s ++ [EvDelete (doomed name namespace) r])))
    as (evs & Ht & Hrun & _); [apply pointsTo_doomed|].
  exists evs. split; [|exact Hrun].
  unfold utils.WaitUntil. rewrite Ht. cbn [trace]. by rewrite <- app_assoc.
Qed.

(** C5: when the delete submission answers not-found, the call with
    [reportErrorOnNotFound = true] returns the formatted submission error at
    once, without a lookup; with [false] it goes on to the absence poll, its
    result is nil or the poll's timeout but never the submission error, and
    it is nil after a single lookup when that lookup answers not-found. *)
Theorem DeleteApplication_submission_not_found name namespace (s : State W) e w1 :
  rclient.Delete (doomed name namespace) (world s) = (Some e, w1) →
  IsNotFound e = true →
  let key := {| KeyName := name; KeyNamespace := namespace |} in
  let s1 := mkState (heap s ++ [doomed name namespace]) w1
                    (trace s ++ [EvDelete (doomed name namespace) (Some e)]) in
  let silent := has.DeleteApplication interval name namespace false s in
  has.DeleteApplication interval name namespace true s =
    (Some (errorString ("error deleting an application: " +:+ Error e)), s1)
  ∧ silent = utils.WaitUntil interval (has.ApplicationDeleted (length (heap s)))
                             (time.mul 1 time.Minute) s1
  ∧ (fst silent = None ∨ fst silent = Some utils.ErrWaitTimeout)
  ∧ (∀ e', fst (rclient.Get key w1) = Err e' → IsNotFound e' = true →
       fst silent = None
       ∧ trace (snd silent) = trace s1 ++ [EvGet key (Err e')]).
Proof.
  intros Hd Hnf key s1 silent.
  assert (Hrej : deleteRejected (Some e) false = false)
    by (unfold deleteRejected; rewrite Hnf; reflexivity).
  assert (Hsilent : silent = utils.WaitUntil interval
            (has.ApplicationDeleted (length (heap s))) 60000000000 s1).
  { unfold silent. rewrite (DeleteApplication_run _ _ _ _ _ _ Hd). cbv zeta.
    by rewrite Hrej. }
  split; [|split; [|split]].
  - rewrite (DeleteApplication_run _ _ _ _ _ _ Hd). cbv zeta.
    unfold deleteRejected. by rewrite Hnf.
  - by rewrite one_minute_ns.
  - destruct (DeleteApplication_polls _ _ _ _ _ _ Hd Hrej) as (evs & _ & Hrun).
    exact (pollRun_outcome interval _ _ _ _ Hrun).
  - intros e' Hg Hnf'. rewrite Hsilent. unfold utils.WaitUntil.
    destruct (rclient.Get key w1) as [r w2] eqn:Hget. cbn [fst] in Hg. subst r.
    rewrite (poll_deleted_at_once (length (heap s)) key _ s1 e' w2);
      [by split|apply pointsTo_doomed|exact Hget|exact Hnf'].
Qed.

(** C6: a submission that is not rejected is followed by the absence poll,
    which looks the application up at least once under its name and
    namespace; the call returns nil only when its last lookup failed with
    not-found; and one evaluation of the condition answers "not yet
    deleted" to a lookup failure that is not not-found. *)
Theorem DeleteApplication_confirms_absence name namespace report (s : State W) :
  let key := {| KeyName := name; KeyNamespace := namespace |} in
  let submission := fst (rclient.Delete (doomed name namespace) (world s)) in
  let out := has.DeleteApplication interval name namespace report s in
  (deleteRejected submission report = false →
     ∃ evs,
       trace (snd out) = trace s ++ EvDelete (doomed name namespace) submission :: evs
       ∧ pollRun (obsDeleted key) interval (utils.ticksUntil interval 60000000000)
                 evs (fst out)
       ∧ ∃ r rest, evs = EvGet key r :: rest)
  ∧ (fst out = None →
       ∃ pre e,
         trace (snd out)
         = trace s ++ EvDelete (doomed name namespace) submission
                   :: pre ++ [EvGet key (Err e)]
         ∧ IsNotFound e = true)
  ∧ (∀ application (s' : State W) e,
       fst (rclient.Get (ObjectKeyFromObject (deref (heap s') application)) (world s'))
       = Err e →
       IsNotFound e = false →
       fst (has.ApplicationDeleted application s') = (false, None)).
Proof.
  intros key submission out. subst submission out.
  destruct (rclient.Delete (doomed name namespace) (world s)) as [r w1] eqn:Hd.
  cbn [fst]. split; [|split].
  - intros Hrej.
    destruct (DeleteApplication_polls _ _ _ _ _ _ Hd Hrej) as (evs & Ht & Hrun).
    exists evs. split; [exact Ht|]. split; [exact Hrun|].
    destruct (pollRun_starts interval _ _ _ _ Hrun) as (ev & b & rest & -> & r0 & -> & _).
    by exists r0, rest.
  - intros Hnil. destruct (deleteRejected r report) eqn:Hrej.
    + rewrite (DeleteApplication_run _ _ _ _ _ _ Hd) in Hnil. cbv zeta in Hnil.
      rewrite Hrej in Hnil. discriminate.
    + destruct (DeleteApplication_polls _ _ _ _ _ _ Hd Hrej) as (evs & Ht & Hrun).
      cbv zeta in Ht, Hrun. rewrite Hnil in Hrun.
      destruct (pollRun_success interval _ _ _ Hrun) as (pre & ev & -> & Hev).
      destruct (obsDeleted_true _ _ Hev) as (e & -> & Hnf).
      by exists pre, e.
  - intros application s' e Hg Hnf. rewrite ApplicationDeleted_run. cbv zeta.
    destruct (rclient.Get _ (world s')) as [r' w']. cbn [fst] in *. subst r'.
    cbn [lookupNotFound]. by rewrite Hnf.
Qed.

(** C10: whatever the caller passes, a submission that is not rejected is
    followed by [WaitUntil] with a timeout of 60000000000 nanoseconds, one
    minute; a call sleeps less than one minute plus one interval, and when
    it returns the poll's timeout it has slept at least one minute. *)
Theorem DeleteApplication_confirmation_timeout name namespace report (s : State W) :
  let submission := rclient.Delete (doomed name namespace) (world s) in
  let s1 := mkState (heap s ++ [doomed name namespace]) (snd submission)
                    (trace s ++ [EvDelete (doomed name namespace) (fst submission)]) in
  let out := has.DeleteApplication interval name namespace report s in
  time.mul 1 time.Minute = 60000000000
  ∧ (deleteRejected (fst submission) report = false →
       out = utils.WaitUntil interval (has.ApplicationDeleted (length (heap s)))
                             60000000000 s1)
  ∧ ∃ evs,
      trace (snd out) = trace s ++ evs
      ∧ slept evs < 60000000000 + Z.pos interval
      ∧ (fst out = Some utils.ErrWaitTimeout → 60000000000 <= slept evs).
Proof.
  intros submission s1 out. subst s1 out submission.
  destruct (rclient.Delete (doomed name namespace) (world s)) as [r w1] eqn:Hd.
  cbn [fst snd]. split; [reflexivity|]. split.
  - intros Hrej. rewrite (DeleteApplication_run _ _ _ _ _ _ Hd). cbv zeta.
    by rewrite Hrej.
  - destruct (deleteRejected r report) eqn:Hrej.
    + rewrite (DeleteApplication_run _ _ _ _ _ _ Hd). cbv zeta. rewrite Hrej.
      cbn [fst snd trace]. eexists. split; [reflexivity|]. cbn [slept].
      split; [lia|discriminate].
    + destruct (DeleteApplication_polls _ _ _ _ _ _ Hd Hrej) as (evs & Ht & Hrun).
      cbv zeta in Ht, Hrun. eexists. split; [exact Ht|].
      pose proof (ticks_before_deadline 60000000000) as Hlt.
      pose proof (ticksUntil_spec interval 60000000000 ltac:(lia)) as Hspec.
      cbv zeta in Hspec. cbn [slept]. split.
      * apply pollRun_slept_le in Hrun; [lia|apply obsDeleted_not_sleep].
      * intros Hto. rewrite Hto in Hrun.
        apply pollRun_expired in Hrun as (_ & Hs & _); [lia|apply obsDeleted_not_sleep].
Qed.

(** *** Bulk deletion *)

Lemma obsListEmpty_true ns ev :
  obsListEmpty ns ev true → ev = EvList ns (Ok []).
Proof.
  intros ([items|e] & -> & Hb); simpl in Hb; [|discriminate].
  by destruct items.
Qed.

Lemma obsListEmpty_false ns ev :
  obsListEmpty ns ev false → ev ≠ EvList ns (Ok []).
Proof.
  intros (r & -> & Hb) [= ->]. discriminate.
Qed.

Lemma DeleteAllApplicationsInASpecificNamespace_run namespace timeout (s : State W) r w1 :
  rclient.DeleteAllOf namespace (world s) = (r, w1) →
  let s1 := mkState (heap s) w1 (trace s ++ [EvDeleteAllOf namespace r]) in
  has.DeleteAllApplicationsInASpecificNamespace interval namespace timeout s =
  match r with
  | Some e =>
      (Some (errorString ("error deleting applications from the namespace "
                          +:+ namespace +:+ ": " +:+ Error e)), s1)
  | None => utils.WaitUntil interval (has.applicationListEmpty namespace) timeout s1
  end.
Proof.
  intros Hd. cbv zeta.
  unfold has.DeleteAllApplicationsInASpecificNamespace, has.kubeDeleteAllOf.
  unfold bind at 1, call at 1. rewrite Hd. by destruct r.
Qed.

(** C7: the call first issues one bulk delete for the namespace.  If that
    fails, the formatted error is returned and nothing else is done.
    Otherwise the events that follow are one poll run of listings of that
    namespace, in which a listing error or a non-empty listing means "not
    yet"; the result is nil exactly when a listing came back empty, which is
    then the last event; any other result is the poll's timeout, after the
    whole timeout was slept. *)
Theorem DeleteAllApplicationsInASpecificNamespace_outcome
    namespace timeout (s : State W) :
  let submission := rclient.DeleteAllOf namespace (world s) in
  let out := has.DeleteAllApplicationsInASpecificNamespace interval namespace timeout s in
  (∀ (s' : State W) e,
     fst (rclient.List namespace (world s')) = Err e →
     fst (has.applicationListEmpty namespace s') = (false, None))
  ∧
  match fst submission with
  | Some e =>
      out = (Some (errorString ("error deleting applications from the namespace "
                                +:+ namespace +:+ ": " +:+ Error e)),
             mkState (heap s) (snd submission)
                     (trace s ++ [EvDeleteAllOf namespace (Some e)]))
  | None =>
      ∃ evs,
        trace (snd out) = trace s ++ EvDeleteAllOf namespace None :: evs
        ∧ pollRun (obsListEmpty namespace) interval (utils.ticksUntil interval timeout)
                  evs (fst out)
        ∧ (fst out = None ↔ Exists (λ ev, ev = EvList namespace (Ok [])) evs)
        ∧ (fst out = None → ∃ pre, evs = pre ++ [EvList namespace (Ok [])])
        ∧ (fst out ≠ None →
             fst out = Some utils.ErrWaitTimeout
             ∧ slept evs = Z.of_nat (utils.ticksUntil interval timeout) * Z.pos interval)
        ∧ slept evs < Z.max timeout 0 + Z.pos interval
  end.
Proof.
  intros submission out. subst submission out. split.
  { intros s' e Hl. rewrite applicationListEmpty_run.
    destruct (rclient.List namespace (world s')) as [r' w']. cbn [fst] in *.
    by subst r'. }
  destruct (rclient.DeleteAllOf namespace (world s)) as [r w1] eqn:Hd.
  rewrite (DeleteAllApplicationsInASpecificNamespace_run _ _ _ _ _ Hd).
  cbv zeta. cbn [fst snd]. destruct r as [e|]; [reflexivity|].
  destruct (listEmpty_poll_run namespace (utils.ticksUntil interval timeout)
              (mkState (heap s) w1 (trace s ++ [EvDeleteAllOf namespace None])))
    as (evs & Ht & Hrun).
  cbv zeta in Ht, Hrun. unfold utils.WaitUntil.
  set (out := utils.poll interval (has.applicationListEmpty namespace)
                (utils.ticksUntil interval timeout) _) in *.
  exists evs. split; [rewrite Ht; cbn [trace]; by rewrite <- app_assoc|].
  split; [exact Hrun|].
  pose proof (ticks_before_deadline timeout) as Hticks.
  pose proof (pollRun_slept_le interval _ _ _ _ (obsListEmpty_not_sleep namespace) Hrun)
    as Hslept.
  destruct (fst out) as [e|] eqn:Hout.
  - destruct (pollRun_expired interval _ _ _ _ (obsListEmpty_not_sleep namespace) Hrun)
      as (-> & Hs & Hall).
    split; [|split; [discriminate|split; [by intros _|lia]]].
    split; [discriminate|]. intros Hex. exfalso.
    apply Exists_exists in Hex as (ev & Hin & ->).
    rewrite Forall_forall in Hall. destruct (Hall _ Hin) as [Hsl|Hobs].
    + discriminate.
    + by apply obsListEmpty_false in Hobs.
  - destruct (pollRun_success interval _ _ _ Hrun) as (pre & ev & -> & Hev).
    apply obsListEmpty_true in Hev as ->.
    split; [|split; [by exists pre|split; [done|lia]]].
    split; [|done]. intros _. apply Exists_app. right. by constructor.
Qed.

End HasTheory.

(** ** Log collection *)

Section LogsTheory.
Context {W : Type} {host : logs.Host W}.

(** C1: [StoreTestLogs] returns exactly what creating the directory
    returned: nil when it succeeded, whatever the two exporters answer, and
    the directory error otherwise.  After a failed creation nothing else is
    called; after a successful one both exporters are called, in order, and
    each failure only adds one line to [GinkgoWriter]. *)
Theorem StoreTestLogs_outcome testNamespace jobName (s : logs.State W) :
  let dir := logs.testLogsDir testNamespace (logs.world s) in
  let made := logs.MkdirAll dir logs.ModePerm (logs.world s) in
  let out := logs.StoreTestLogs testNamespace jobName s in
  fst out = fst made
  ∧ (fst out = None ↔ fst made = None)
  ∧ match fst made with
    | Some e =>
        snd out = logs.mkState (snd made) (logs.GinkgoWriter s)
                    (logs.trace s ++ [logs.EvMkdirAll dir logs.ModePerm (Some e)])
    | None =>
        let pods := logs.StorePodLogs testNamespace jobName dir (snd made) in
        let runs := logs.StorePipelineRuns testNamespace (snd pods) in
        snd out =
        logs.mkState (snd runs)
          (logs.GinkgoWriter s
           ++ logs.notice "Failed to store pod logs: " (fst pods)
           ++ logs.notice "Failed to store pipelineRun logs: " (fst runs))
          (logs.trace s
           ++ [logs.EvMkdirAll dir logs.ModePerm None;
               logs.EvStorePodLogs testNamespace jobName dir (fst pods);
               logs.EvStorePipelineRuns testNamespace (fst runs)])
    end.
Proof.
  intros dir made out. subst out made.
  unfold logs.StoreTestLogs, bind, logs.call, logs.Printf, ret.
  cbn [logs.world logs.trace logs.GinkgoWriter]. fold dir.
  destruct (logs.MkdirAll dir logs.ModePerm (logs.world s)) as [[e|] w1];
    cbn [fst snd logs.world logs.trace logs.GinkgoWriter]; [done|].
  destruct (logs.StorePodLogs testNamespace jobName dir w1) as [[e1|] w2];
    cbn [fst snd logs.world logs.trace logs.GinkgoWriter logs.notice];
    destruct (logs.StorePipelineRuns testNamespace w2) as [[e2|] w3];
    cbn [fst snd logs.world logs.trace logs.GinkgoWriter logs.notice];
    rewrite <- ?app_assoc, ?app_nil_r; done.
Qed.

End LogsTheory.

(** ** Runs on the reference cluster *)

Section Runs.
Import fake.

(** With the controller running, the devfile appears during the first
    sleep and the second check succeeds. *)
Example create_reconciled :
  let out := has.CreateApplicationWithTimeout everySecond json "demo" "ns1"
               (time.mul time.Second 5) (start (mkCluster ∅ true false)) in
  fst out = (Some 0%nat, None)
  ∧ Devfile (Status (deref (heap (snd out)) 0)) = "schemaVersion: 2.2.0"
  ∧ slept (trace (snd out)) = 1000000000.
Proof. vm_compute. by repeat split. Qed.

(** With no controller, the poll sleeps through the whole timeout. *)
Example create_stalled :
  let out := has.CreateApplicationWithTimeout everySecond json "demo" "ns2"
               2500000000 (start stalled) in
  fst out = (None, Some (errorString
    ("timed out when waiting for devfile content creation for application demo"
     +:+ " in ns2 namespace: timed out waiting for the condition."
     +:+ " applicattion: {name: demo, namespace: ns2, devfile: }")))
  ∧ slept (trace (snd out)) = 3000000000.
Proof. vm_compute. by split. Qed.

Example delete_existing :
  let out := has.DeleteApplication everySecond "demo" "ns1" true (start stalled) in
  fst out = None
  ∧ trace (snd out)
    = [EvDelete (doomed "demo" "ns1") None;
       EvGet {| KeyName := "demo"; KeyNamespace := "ns1" |} (Err notFound)].
Proof. vm_compute. by split. Qed.

(** While the API server is unreachable a delete with
    [reportErrorOnNotFound = false] still fails at once. *)
Example delete_unreachable :
  fst (has.DeleteApplication everySecond "demo" "ns1" false
         (start (mkCluster ∅ false true)))
  = Some (errorString "error deleting an application: connection refused").
Proof. reflexivity. Qed.

Example delete_all :
  let out := has.DeleteAllApplicationsInASpecificNamespace everySecond "ns1" 0
               (start stalled) in
  fst out = None
  ∧ trace (snd out) = [EvDeleteAllOf "ns1" None; EvList "ns1" (Ok [])].
Proof. vm_compute. by split. Qed.

Example store_logs_exporters_fail :
  logs.StoreTestLogs "ns1" "job" (logs.mkState (mkHost "/w" None [] true) [] [])
  = (None,
     logs.mkState (mkHost "/w" None [] true)
       ["Failed to store pod logs: pods: forbidden";
        "Failed to store pipelineRun logs: pipelineruns: forbidden"]
       [logs.EvMkdirAll "/w/tmp/ns1" 511 None;
        logs.EvStorePodLogs "ns1" "job" "/w/tmp/ns1"
          (Some (errorString "pods: forbidden"));
        logs.EvStorePipelineRuns "ns1" (Some (errorString "pipelineruns: forbidden"))]).
Proof. reflexivity. Qed.

Example store_logs_not_a_directory :
  logs.StoreTestLogs "ns1" "job"
    (logs.mkState (mkHost "/w" (Some "/artifacts") ["/artifacts/ns1"] false) [] [])
  = (Some (errorString "mkdir /artifacts/ns1: not a directory"),
     logs.mkState (mkHost "/w" (Some "/artifacts") ["/artifacts/ns1"] false) []
       [logs.EvMkdirAll "/artifacts/ns1" 511
          (Some (errorString "mkdir /artifacts/ns1: not a directory"))]).
Proof. reflexivity. Qed.

(** The submission of an application that already exists is rejected. *)
Lemma CreateApplicationWithTimeout_submission_error_witness :
  rclient.Create (requested "demo" "ns1") (world (start stalled))
  = (Err alreadyExists, stalled)
  ∧ has.CreateApplicationWithTimeout everySecond json "demo" "ns1" 2000000000
      (start stalled)
    = ((None, Some alreadyExists),
       mkState [requested "demo" "ns1"] stalled
               [EvCreate (requested "demo" "ns1") (Err alreadyExists)]).
Proof.
  assert (H : rclient.Create (requested "demo" "ns1") (world (start stalled))
              = (Err alreadyExists, stalled)) by (vm_compute; reflexivity).
  split; [exact H|].
  exact (CreateApplicationWithTimeout_submission_error everySecond json
           "demo" "ns1" 2000000000 (start stalled) alreadyExists stalled H).
Defined.

(** A new application on a cluster with no controller: the poll expires. *)
Lemma CreateApplicationWithTimeout_poll_expired_witness :
  let created := requested "demo" "ns2" in
  let w1 := snd (rclient.Create created stalled) in
  rclient.Create created (world (start stalled)) = (Ok created, w1)
  ∧ fst (utils.WaitUntil everySecond (has.ApplicationDevfilePresent 0) 2000000000
           (mkState [created] w1 [EvCreate created (Ok created)]))
    = Some utils.ErrWaitTimeout
  ∧ fst (has.CreateApplicationWithTimeout everySecond json "demo" "ns2" 2000000000
           (start stalled))
    = (None, Some (errorString
         (has.createTimeoutMessage "demo" "ns2" utils.ErrWaitTimeout
            "{name: demo, namespace: ns2, devfile: }"))).
Proof.
  intros created w1.
  assert (H1 : rclient.Create created (world (start stalled)) = (Ok created, w1))
    by (vm_compute; reflexivity).
  assert (H2 : fst (utils.WaitUntil everySecond (has.ApplicationDevfilePresent 0)
                      2000000000
                      (mkState [created] w1 [EvCreate created (Ok created)]))
               = Some utils.ErrWaitTimeout) by (vm_compute; reflexivity).
  split; [exact H1|]. split; [exact H2|].
  exact (proj1 (CreateApplicationWithTimeout_poll_expired everySecond json
                  "demo" "ns2" 2000000000 (start stalled) created w1
                  utils.ErrWaitTimeout H1 H2)).
Defined.

(** The same submission with a zero timeout. *)
Lemma CreateApplicationWithTimeout_nonpositive_timeout_witness :
  let created := requested "demo" "ns2" in
  let w1 := snd (rclient.Create created stalled) in
  0 <= 0
  ∧ rclient.Create created (world (start stalled)) = (Ok created, w1)
  ∧ rclient.Get (ObjectKeyFromObject created) w1 = (Ok created, w1)
  ∧ devfilePresent (Ok created) = false
  ∧ trace (snd (has.CreateApplicationWithTimeout everySecond json "demo" "ns2" 0
                  (start stalled)))
    = [EvCreate created (Ok created);
       EvGet (ObjectKeyFromObject created) (Ok created);
       EvGet (ObjectKeyFromObject created) (Ok created)].
Proof.
  intros created w1.
  assert (H0 : 0 <= 0) by lia.
  assert (H1 : rclient.Create created (world (start stalled)) = (Ok created, w1))
    by (vm_compute; reflexivity).
  assert (H2 : rclient.Get (ObjectKeyFromObject created) w1 = (Ok created, w1))
    by (vm_compute; reflexivity).
  assert (H3 : devfilePresent (Ok created) = false) by reflexivity.
  split; [exact H0|]. split; [exact H1|]. split; [exact H2|]. split; [exact H3|].
  exact (proj1 (proj2 (CreateApplicationWithTimeout_nonpositive_timeout everySecond json
                         "demo" "ns2" 0 (start stalled) created w1 (Ok created) w1
                         H0 H1 H2 H3))).
Defined.

(** A check through a pointer to an application that exists but has no
    devfile yet. *)
Lemma ApplicationDevfilePresent_answer_witness :
  let s := mkState [app "demo" "ns1" ""] stalled [] in
  (0 < length (heap s))%nat
  ∧ fst (has.ApplicationDevfilePresent 0 s) = (false, None).
Proof.
  intros s.
  assert (H : (0 < length (heap s))%nat) by (simpl; lia).
  split; [exact H|].
  destruct (ApplicationDevfilePresent_answer 0 s H) as (_ & (d & Hd & Hiff) & _).
  rewrite Hd. destruct d; [|reflexivity].
  exfalso. by apply (proj1 Hiff).
Defined.

(** Deleting an application that is not there. *)
Lemma DeleteApplication_submission_not_found_witness :
  rclient.Delete (doomed "demo" "ns2") (world (start stalled)) = (Some notFound, stalled)
  ∧ IsNotFound notFound = true
  ∧ fst (has.DeleteApplication everySecond "demo" "ns2" true (start stalled))
    = Some (errorString ("error deleting an application: " +:+ Error notFound))
  ∧ fst (has.DeleteApplication everySecond "demo" "ns2" false (start stalled)) = None.
Proof.
  assert (H1 : rclient.Delete (doomed "demo" "ns2") (world (start stalled))
               = (Some notFound, stalled)) by (vm_compute; reflexivity).
  assert (H2 : IsNotFound notFound = true) by reflexivity.
  split; [exact H1|]. split; [exact H2|].
  destruct (DeleteApplication_submission_not_found everySecond "demo" "ns2"
              (start stalled) notFound stalled H1 H2) as (Ht & _ & _ & Hf).
  split.
  - rewrite Ht. reflexivity.
  - apply (Hf notFound); reflexivity.
Defined.

End Runs.

(** ** Effects on the heap *)

Lemma deref_insert_ne h a p q : p ≠ q → deref (<[p := a]> h) q = deref h q.
Proof. intros Hne. unfold deref. by rewrite list_lookup_insert_ne. Qed.

Lemma lastSeenStatus_snoc evs ev init :
  lastSeenStatus (evs ++ [ev]) init =
  match ev with
  | EvGet _ (Ok a) => Status a
  | _ => lastSeenStatus evs init
  end.
Proof.
  revert init. induction evs as [|e evs IH]; intros init.
  - by destruct ev as [| ? [] | | | |].
  - destruct e as [| ? [] | | | |]; cbn [app lastSeenStatus]; by rewrite IH.
Qed.

Lemma setStatus_own a : setStatus (Status a) a = a.
Proof. by destruct a. Qed.

Section HasEffects.
Context {W : Type} {client : rclient.Client W} {clock : time.Clock W}.
Variable interval : positive.
Variable json : Application → string.

(** X1: [GetApplication] makes one lookup under the name and namespace it
    is given.  A failed lookup comes back as the store's error; a successful
    one as a pointer that was not allocated before and holds exactly the
    object read.  No object allocated before the call is changed. *)
Theorem GetApplication_fresh name namespace (s : State W) :
  let key := {| KeyName := name; KeyNamespace := namespace |} in
  let lookup := rclient.Get key (world s) in
  let out := has.GetApplication name namespace s in
  trace (snd out) = trace s ++ [EvGet key (fst lookup)]
  ∧ world (snd out) = snd lookup
  ∧ (∀ q, (q < length (heap s))%nat → deref (heap (snd out)) q = deref (heap s) q)
  ∧ match fst lookup with
    | Err e => fst out = Err e
    | Ok a => fst out = Ok (length (heap s))
              ∧ deref (heap (snd out)) (length (heap s)) = a
    end.
Proof.
  intros key lookup out. subst out lookup.
  rewrite GetApplication_run. cbv zeta. fold key.
  destruct (rclient.Get key (world s)) as [[a|e] w]; cbn [fst snd trace world heap].
  - split; [reflexivity|]. split; [reflexivity|]. split.
    + intros q Hq. by apply deref_app_l.
    + split; [reflexivity|apply deref_fresh].
  - split; [reflexivity|]. split; [reflexivity|]. split; [|reflexivity].
    intros q Hq. by apply deref_app_l.
Qed.

(** X2: one evaluation of [ApplicationDevfilePresent] allocates one object
    (the one it reads into) and changes nothing else on the heap except the
    status of [application]: after a successful lookup it is the status
    read, after a failed one it is what it was.  Name, namespace and spec of
    [application] are never touched. *)
Theorem ApplicationDevfilePresent_effect application (s : State W) :
  (application < length (heap s))%nat →
  let this := deref (heap s) application in
  let lookup := fst (rclient.Get (ObjectKeyFromObject this) (world s)) in
  let out := has.ApplicationDevfilePresent application s in
  length (heap (snd out)) = S (length (heap s))
  ∧ (∀ q, (q < length (heap s))%nat → q ≠ application →
       deref (heap (snd out)) q = deref (heap s) q)
  ∧ deref (heap (snd out)) application
    = match lookup with
      | Ok a => setStatus (Status a) this
      | Err _ => this
      end
  ∧ Meta (deref (heap (snd out)) application) = Meta this
  ∧ Spec (deref (heap (snd out)) application) = Spec this.
Proof.
  intros Hp this lookup out. subst out lookup.
  rewrite (ApplicationDevfilePresent_run _ _ Hp). cbv zeta. fold this.
  assert (Hp' : ∀ a, (application < length (heap s ++ [a]))%nat)
    by (intros a; rewrite length_app; simpl; lia).
  destruct (rclient.Get _ (world s)) as [[a|e] w]; cbn [fst snd heap].
  - rewrite length_insert, length_app, (deref_insert _ _ _ (Hp' a)).
    split; [simpl; lia|]. split; [|by repeat split].
    intros q Hq Hne. rewrite deref_insert_ne by congruence. by apply deref_app_l.
  - rewrite length_app, (deref_app_l _ _ _ Hp).
    split; [simpl; lia|]. split; [|by repeat split].
    intros q Hq Hne. by apply deref_app_l.
Qed.

(** X3: one evaluation of [ApplicationDeleted] answers true only to a
    lookup that failed with not-found: an application that is still there
    and any other failure both give false, and never an error.  It changes
    no object allocated before, [application] included. *)
Theorem ApplicationDeleted_effect application (s : State W) :
  let this := deref (heap s) application in
  let lookup := fst (rclient.Get (ObjectKeyFromObject this) (world s)) in
  let out := has.ApplicationDeleted application s in
  match lookup with
  | Ok _ => fst out = (false, None)
  | Err e => fst out = (IsNotFound e, None)
  end
  ∧ (fst (fst out) = true ↔ ∃ e, lookup = Err e ∧ IsNotFound e = true)
  ∧ (∀ q, (q < length (heap s))%nat → deref (heap (snd out)) q = deref (heap s) q)
  ∧ trace (snd out) = trace s ++ [EvGet (ObjectKeyFromObject this) lookup].
Proof.
  intros this lookup out. subst out lookup.
  rewrite ApplicationDeleted_run. cbv zeta. fold this.
  destruct (rclient.Get _ (world s)) as [[a|e] w]; cbn [fst snd heap trace lookupNotFound].
  - split; [reflexivity|]. split; [|split; [|reflexivity]].
    + split; [discriminate|]. by intros (e & He & _).
    + intros q Hq. by apply deref_app_l.
  - split; [reflexivity|]. split; [|split; [|reflexivity]].
    + split; [intros Hnf; by exists e|]. by intros (e' & [= <-] & Hnf).
    + intros q Hq. by apply deref_app_l.
Qed.

(** X4: [refreshApplicationForErrorDebug] never fails.  When its lookup
    fails it returns the very pointer it was given; when it succeeds it
    returns a pointer that was not allocated before, holding the object
    read.  Either way the object behind [application] and every other
    object allocated before stay as they were. *)
Theorem refreshApplicationForErrorDebug_effect application (s : State W) :
  (application < length (heap s))%nat →
  let this := deref (heap s) application in
  let lookup := fst (rclient.Get (ObjectKeyFromObject this) (world s)) in
  let out := has.refreshApplicationForErrorDebug application s in
  match lookup with
  | Err _ => fst out = application
  | Ok a => fst out = length (heap s) ∧ fst out ≠ application
            ∧ deref (heap (snd out)) (fst out) = a
  end
  ∧ (∀ q, (q < length (heap s))%nat → deref (heap (snd out)) q = deref (heap s) q)
  ∧ trace (snd out) = trace s ++ [EvGet (ObjectKeyFromObject this) lookup].
Proof.
  intros Hp this lookup out. subst out lookup.
  rewrite (refreshApplicationForErrorDebug_run _ _ Hp). cbv zeta. fold this.
  destruct (rclient.Get _ (world s)) as [[a|e] w]; cbn [fst snd heap trace].
  - split; [|split; [|reflexivity]].
    + split; [reflexivity|]. split; [lia|apply deref_fresh].
    + intros q Hq. by apply deref_app_l.
  - split; [reflexivity|]. split; [|reflexivity].
    intros q Hq. by apply deref_app_l.
Qed.

(** *** The object behind a readiness poll *)

Lemma pollRun_events obs n evs r :
  pollRun obs interval n evs r →
  Forall (λ ev, ev = EvSleep (Z.pos interval) ∨ ∃ b, obs ev b) evs.
Proof.
  induction 1 as [n ev Hev|ev Hev|n ev evs r Hev Hrun IH].
  - constructor; [right; eauto|constructor].
  - constructor; [right; eauto|constructor].
  - constructor; [right; eauto|]. constructor; [by left|exact IH].
Qed.

Lemma devfile_poll_object application obj n (s : State W) :
  (application < length (heap s))%nat →
  deref (heap s) application = obj →
  let out := utils.poll interval (has.ApplicationDevfilePresent application) n s in
  ∃ evs,
    trace (snd out) = trace s ++ evs
    ∧ pollRun (obsDevfile (ObjectKeyFromObject obj)) interval n evs (fst out)
    ∧ (application < length (heap (snd out)))%nat
    ∧ deref (heap (snd out)) application
      = setStatus (lastSeenStatus evs (Status obj)) obj.
Proof.
  intros Hp Hobj. cbv zeta.
  set (I := λ s' : State W, ∃ evs,
         trace s' = trace s ++ evs
         ∧ (application < length (heap s'))%nat
         ∧ deref (heap s') application
           = setStatus (lastSeenStatus evs (Status obj)) obj).
  destruct (poll_run interval (has.ApplicationDevfilePresent application) I
              (obsDevfile (ObjectKeyFromObject obj))) with (n := n) (s := s)
    as (evs & Ht & Hrun & (evs' & Ht' & Hp' & Hd')).
  - intros s' (evs & Ht & Hp' & Hd).
    destruct (rclient.Get (ObjectKeyFromObject (deref (heap s') application)) (world s'))
      as [r w] eqn:Hg.
    destruct (ApplicationDevfilePresent_step _ _ _ _ Hp' Hg) as (h' & Hrun & Hp2 & Hd2).
    rewrite Hd in Hrun, Hd2.
    change (ObjectKeyFromObject (setStatus _ obj)) with (ObjectKeyFromObject obj) in Hrun.
    exists (EvGet (ObjectKeyFromObject obj) r), (devfilePresent r).
    rewrite Hrun. cbn [fst snd trace heap].
    split; [reflexivity|]. split; [reflexivity|]. split; [by exists r|].
    unfold I. exists (evs ++ [EvGet (ObjectKeyFromObject obj) r]).
    cbn [trace heap].
    split; [by rewrite Ht, <- app_assoc|]. split; [exact Hp2|].
    rewrite Hd2, lastSeenStatus_snoc. by destruct r.
  - intros d s' (evs & Ht & Hp' & Hd). unfold I. exists (evs ++ [EvSleep d]).
    cbn [utils.sleep snd trace heap].
    split; [by rewrite Ht, <- app_assoc|]. split; [exact Hp'|].
    by rewrite lastSeenStatus_snoc.
  - unfold I. exists []. rewrite app_nil_r. split; [reflexivity|]. split; [exact Hp|].
    cbn [lastSeenStatus]. by rewrite <- Hobj, setStatus_own.
  - exists evs. split; [exact Ht|]. split; [exact Hrun|]. split; [exact Hp'|].
    rewrite Ht in Ht'. apply app_inv_head in Ht'. by subst evs'.
Qed.

(** What a call does once the submission has been accepted, in terms of
    the events of its readiness poll. *)
Lemma CreateApplicationWithTimeout_anatomy name namespace timeout (s : State W)
    created w1 :
  rclient.Create (requested name namespace) (world s) = (Ok created, w1) →
  let key := ObjectKeyFromObject created in
  let out := has.CreateApplicationWithTimeout interval json name namespace timeout s in
  ∃ evs res,
    pollRun (obsDevfile key) interval (utils.ticksUntil interval timeout) evs res
    ∧ match res with
      | None =>
          fst out = (Some (length (heap s)), None)
          ∧ trace (snd out)
            = trace s ++ EvCreate (requested name namespace) (Ok created) :: evs
          ∧ deref (heap (snd out)) (length (heap s))
            = setStatus (lastSeenStatus evs (Status created)) created
      | Some err =>
          ∃ r,
            fst out
            = (None, Some (errorString
                 (has.createTimeoutMessage name namespace err
                    (json match r with
                          | Ok fetched => fetched
                          | Err _ => setStatus (lastSeenStatus evs (Status created))
                                               created
                          end))))
            ∧ trace (snd out)
              = trace s ++ EvCreate (requested name namespace) (Ok created)
                        :: evs ++ [EvGet key r]
      end.
Proof.
  intros Hc key out. subst out.
  rewrite (CreateApplicationWithTimeout_submitted _ _ _ _ _ _ _ _ Hc). cbv zeta.
  destruct (devfile_poll_object (length (heap s)) created
              (utils.ticksUntil interval timeout)
              (mkState (heap s ++ [created]) w1
                 (trace s ++ [EvCreate (requested name namespace) (Ok created)])))
    as (evs & Ht & Hrun & Hp2 & Hd2).
  { cbn [heap]. rewrite length_app. simpl. lia. }
  { cbn [heap]. apply deref_fresh. }
  unfold utils.WaitUntil.
  destruct (utils.poll _ _ _ _) as [res s2]. cbn [fst snd trace] in *.
  exists evs, res. split; [exact Hrun|].
  destruct res as [err|].
  - destruct (rclient.Get (ObjectKeyFromObject (deref (heap s2) (length (heap s))))
                (world s2)) as [r w] eqn:Hg.
    destruct (refreshApplicationForErrorDebug_step _ _ _ _ Hp2 Hg)
      as (last & h3 & -> & Hd3).
    rewrite Hd2 in Hd3.
    rewrite Hd2.
    change (ObjectKeyFromObject (setStatus _ created)) with key.
    exists r. cbn [fst snd trace heap]. rewrite Hd3. split; [reflexivity|].
    by rewrite Ht, <- !app_assoc.
  - cbn [fst snd]. split; [reflexivity|]. split; [by rewrite Ht, <- app_assoc|exact Hd2].
Qed.

Lemma obsDevfile_true key ev :
  obsDevfile key ev true →
  ∃ a, ev = EvGet key (Ok a) ∧ Devfile (Status a) ≠ "".
Proof.
  intros ([a|e] & -> & Hb); simpl in Hb; [|discriminate].
  exists a. split; [reflexivity|].
  apply String.eqb_neq. by apply negb_true_iff.
Qed.

(** X5: when the submission is accepted and the call returns an
    application, that pointer is the one allocated for the submitted
    object, the last request made was a lookup that succeeded, and the
    object returned is the object the store accepted with the status of
    that last lookup, whose devfile is not empty. *)
Theorem CreateApplicationWithTimeout_ready
    name namespace timeout (s : State W) created w1 application :
  rclient.Create (requested name namespace) (world s) = (Ok created, w1) →
  let out := has.CreateApplicationWithTimeout interval json name namespace timeout s in
  fst out = (Some application, None) →
  let key := ObjectKeyFromObject created in
  application = length (heap s)
  ∧ ∃ pre a,
      trace (snd out)
      = trace s ++ EvCreate (requested name namespace) (Ok created)
                :: pre ++ [EvGet key (Ok a)]
      ∧ Devfile (Status a) ≠ ""
      ∧ deref (heap (snd out)) application = setStatus (Status a) created.
Proof.
  intros Hc out Hout key.
  destruct (CreateApplicationWithTimeout_anatomy name namespace timeout s created w1 Hc)
    as (evs & res & Hrun & Hres).
  cbv zeta in Hres. fold out key in Hres.
  destruct res as [err|].
  - destruct Hres as (r & Hfst & _). rewrite Hfst in Hout. discriminate.
  - destruct Hres as (Hfst & Ht & Hd). rewrite Hfst in Hout.
    injection Hout as <-. split; [reflexivity|].
    destruct (pollRun_success interval _ _ _ Hrun) as (pre & ev & -> & Hev).
    destruct (obsDevfile_true _ _ Hev) as (a & -> & Hdev).
    exists pre, a. split; [exact Ht|]. split; [exact Hdev|].
    by rewrite Hd, lastSeenStatus_snoc.
Qed.

(** X6: when the submission is accepted and the call returns an error, the
    poll slept through [ticksUntil timeout] intervals and was followed by
    one more lookup; the error is the formatted timeout, and the object
    dumped in it is the one that lookup read or, if it failed, the accepted
    object carrying the status of the last lookup of the poll that
    succeeded. *)
Theorem CreateApplicationWithTimeout_timeout_dump
    name namespace timeout (s : State W) created w1 err :
  rclient.Create (requested name namespace) (world s) = (Ok created, w1) →
  let out := has.CreateApplicationWithTimeout interval json name namespace timeout s in
  fst out = (None, Some err) →
  let key := ObjectKeyFromObject created in
  ∃ evs r,
    trace (snd out)
    = trace s ++ EvCreate (requested name namespace) (Ok created)
              :: evs ++ [EvGet key r]
    ∧ slept evs = Z.of_nat (utils.ticksUntil interval timeout) * Z.pos interval
    ∧ err = errorString
              (has.createTimeoutMessage name namespace utils.ErrWaitTimeout
                 (json match r with
                       | Ok fetched => fetched
                       | Err _ => setStatus (lastSeenStatus evs (Status created)) created
                       end)).
Proof.
  intros Hc out Hout key.
  destruct (CreateApplicationWithTimeout_anatomy name namespace timeout s created w1 Hc)
    as (evs & res & Hrun & Hres).
  cbv zeta in Hres. fold out key in Hres.
  destruct res as [e|].
  - destruct Hres as (r & Hfst & Ht). rewrite Hfst in Hout. injection Hout as <-.
    destruct (pollRun_expired interval _ _ _ _ (obsDevfile_not_sleep key) Hrun)
      as (-> & Hs & _).
    by exists evs, r.
  - destruct Hres as (Hfst & _). rewrite Hfst in Hout. discriminate.
Qed.

(** X7: a call has one of three results: the store's own error when the
    submission is rejected; otherwise the pointer allocated for the
    submitted object with a nil error, or a nil pointer with the formatted
    timeout.  So the application is nil exactly when the error is not. *)
Theorem CreateApplicationWithTimeout_outcomes name namespace timeout (s : State W) :
  let out := has.CreateApplicationWithTimeout interval json name namespace timeout s in
  match fst (rclient.Create (requested name namespace) (world s)) with
  | Err e => fst out = (None, Some e)
  | Ok _ =>
      fst out = (Some (length (heap s)), None)
      ∨ ∃ dump,
          fst out = (None, Some (errorString
                       (has.createTimeoutMessage name namespace utils.ErrWaitTimeout
                                                 dump)))
  end
  ∧ (fst (fst out) = None ↔ snd (fst out) ≠ None).
Proof.
  intros out. subst out.
  destruct (rclient.Create (requested name namespace) (world s)) as [[created|e] w1] eqn:Hc;
    cbn [fst].
  - destruct (CreateApplicationWithTimeout_anatomy name namespace timeout s created w1 Hc)
      as (evs & res & Hrun & Hres).
    cbv zeta in Hres. destruct res as [err|].
    + destruct Hres as (r & Hfst & _). rewrite Hfst. cbn [fst snd].
      destruct (pollRun_expired interval _ _ _ _ (obsDevfile_not_sleep _) Hrun)
        as (-> & _ & _).
      split; [right; eauto|]. by split.
    + destruct Hres as (Hfst & _). rewrite Hfst. cbn [fst snd].
      split; [by left|]. split; [discriminate|]. by intros [].
  - rewrite (CreateApplicationWithTimeout_rejected _ _ _ _ _ _ _ _ Hc). cbn [fst snd].
    split; [reflexivity|]. by split.
Qed.

(** X8: a call submits exactly once, first, and what it submits carries the
    name as display name.  After a rejected submission it makes no further
    request; after an accepted one everything that follows is a sleep of
    one interval or a lookup under the key of the accepted object: the
    creation is never retried and nothing is deleted or listed. *)
Theorem CreateApplicationWithTimeout_requests name namespace timeout (s : State W) :
  let out := has.CreateApplicationWithTimeout interval json name namespace timeout s in
  let submission := fst (rclient.Create (requested name namespace) (world s)) in
  DisplayName (Spec (requested name namespace)) = name
  ∧ ∃ evs,
      trace (snd out) = trace s ++ EvCreate (requested name namespace) submission :: evs
      ∧ match submission with
        | Err _ => evs = []
        | Ok created => Forall (sleepOrLookup interval (ObjectKeyFromObject created)) evs
        end.
Proof.
  intros out submission. subst out submission. split; [reflexivity|].
  destruct (rclient.Create (requested name namespace) (world s)) as [[created|e] w1] eqn:Hc;
    cbn [fst].
  - destruct (CreateApplicationWithTimeout_anatomy name namespace timeout s created w1 Hc)
      as (evs & res & Hrun & Hres).
    cbv zeta in Hres.
    assert (Hall : Forall (sleepOrLookup interval (ObjectKeyFromObject created)) evs).
    { eapply Forall_impl; [exact (pollRun_events _ _ _ _ Hrun)|].
      intros ev [->|(b & r & -> & _)]; [by left|right; by exists r]. }
    destruct res as [err|].
    + destruct Hres as (r & _ & Ht). eexists. split; [exact Ht|].
      apply Forall_app. split; [exact Hall|]. constructor; [|constructor].
      right. by exists r.
    + destruct Hres as (_ & Ht & _). by exists evs.
  - rewrite (CreateApplicationWithTimeout_rejected _ _ _ _ _ _ _ _ Hc). cbn [snd trace].
    by exists [].
Qed.

(** *** Deletion *)

Lemma deleted_poll_object application obj n (s : State W) :
  (application < length (heap s))%nat →
  deref (heap s) application = obj →
  let out := utils.poll interval (has.ApplicationDeleted application) n s in
  ∃ evs,
    trace (snd out) = trace s ++ evs
    ∧ pollRun (obsDeleted (ObjectKeyFromObject obj)) interval n evs (fst out)
    ∧ deref (heap (snd out)) application = obj.
Proof.
  intros Hp Hobj. cbv zeta.
  set (I := λ s' : State W,
         (application < length (heap s'))%nat ∧ deref (heap s') application = obj).
  destruct (poll_run interval (has.ApplicationDeleted application) I
              (obsDeleted (ObjectKeyFromObject obj))) with (n := n) (s := s)
    as (evs & Ht & Hrun & _ & Hd); [| |by split|by exists evs].
  - intros s' [Hp' Hd]. rewrite ApplicationDeleted_run. cbv zeta. rewrite Hd.
    destruct (rclient.Get _ (world s')) as [r w]. cbn [fst snd trace heap].
    exists (EvGet (ObjectKeyFromObject obj) r), (lookupNotFound r).
    split; [reflexivity|]. split; [reflexivity|]. split; [by exists r|].
    unfold I. cbn [heap]. split; [rewrite length_app; simpl; lia|].
    by rewrite deref_app_l.
  - by intros d s' HI.
Qed.

(** What a call does once the submission was not rejected. *)
Lemma DeleteApplication_anatomy name namespace report (s : State W) r w1 :
  rclient.Delete (doomed name namespace) (world s) = (r, w1) →
  deleteRejected r report = false →
  let key := {| KeyName := name; KeyNamespace := namespace |} in
  let out := has.DeleteApplication interval name namespace report s in
  ∃ evs,
    trace (snd out) = trace s ++ EvDelete (doomed name namespace) r :: evs
    ∧ pollRun (obsDeleted key) interval (utils.ticksUntil interval 60000000000)
              evs (fst out)
    ∧ deref (heap (snd out)) (length (heap s)) = doomed name namespace.
Proof.
  intros Hd Hrej key out. subst out.
  rewrite (DeleteApplication_run _ _ _ _ _ _ _ Hd), Hrej. cbv zeta.
  destruct (deleted_poll_object (length (heap s)) (doomed name namespace)
              (utils.ticksUntil interval 60000000000)
              (mkState (heap s ++ [doomed name namespace]) w1
                       (trace s ++ [EvDelete (doomed name namespace) r])))
    as (evs & Ht & Hrun & Hobj).
  { cbn [heap]. rewrite length_app. simpl. lia. }
  { cbn [heap]. apply deref_fresh. }
  exists evs. unfold utils.WaitUntil.
  split; [rewrite Ht; cbn [trace]; by rewrite <- app_assoc|]. by split.
Qed.

Lemma obsDeleted_false key ev :
  obsDeleted key ev false → ¬ lookupMissed key ev.
Proof.
  intros (r & -> & Hb) (e & [= ->] & Hnf). simpl in Hb. congruence.
Qed.

(** X9: a delete submission that fails with anything but not-found makes
    the call return the formatted error whatever [reportErrorOnNotFound]
    is, and that submission is the only request made. *)
Theorem DeleteApplication_other_error name namespace report (s : State W) e w1 :
  rclient.Delete (doomed name namespace) (world s) = (Some e, w1) →
  IsNotFound e = false →
  has.DeleteApplication interval name namespace report s =
  (Some (errorString ("error deleting an application: " +:+ Error e)),
   mkState (heap s ++ [doomed name namespace]) w1
           (trace s ++ [EvDelete (doomed name namespace) (Some e)])).
Proof.
  intros Hd Hnf. rewrite (DeleteApplication_run _ _ _ _ _ _ _ Hd). cbv zeta.
  unfold deleteRejected. by rewrite Hnf.
Qed.

(** X10: a call has one of three results.  A rejected submission gives the
    formatted submission error.  Otherwise the result is nil exactly when
    one of the lookups that followed failed with not-found, and in every
    other case it is the poll's own timeout error, not wrapped, after one
    minute's worth of intervals was slept. *)
Theorem DeleteApplication_outcomes name namespace report (s : State W) :
  let key := {| KeyName := name; KeyNamespace := namespace |} in
  let submission := fst (rclient.Delete (doomed name namespace) (world s)) in
  let out := has.DeleteApplication interval name namespace report s in
  if deleteRejected submission report
  then ∃ e, submission = Some e
            ∧ fst out = Some (errorString ("error deleting an application: "
                                           +:+ Error e))
  else ∃ evs,
         trace (snd out) = trace s ++ EvDelete (doomed name namespace) submission :: evs
         ∧ (fst out = None ↔ Exists (lookupMissed key) evs)
         ∧ (fst out ≠ None →
              fst out = Some utils.ErrWaitTimeout
              ∧ slept evs
                = Z.of_nat (utils.ticksUntil interval 60000000000) * Z.pos interval).
Proof.
  intros key submission out. subst submission out.
  destruct (rclient.Delete (doomed name namespace) (world s)) as [r w1] eqn:Hd.
  cbn [fst]. destruct (deleteRejected r report) eqn:Hrej.
  - rewrite (DeleteApplication_run _ _ _ _ _ _ _ Hd), Hrej. cbv zeta. cbn [fst].
    destruct r as [e|]; [by exists e|discriminate].
  - destruct (DeleteApplication_anatomy _ _ _ _ _ _ Hd Hrej) as (evs & Ht & Hrun & _).
    cbv zeta in Ht, Hrun. fold key in Hrun.
    exists evs. split; [exact Ht|].
    destruct (fst (has.DeleteApplication interval name namespace report s)) as [e|].
    + destruct (pollRun_expired interval _ _ _ _ (obsDeleted_not_sleep key) Hrun)
        as (-> & Hs & Hall).
      split; [|by intros _]. split; [discriminate|]. intros Hex. exfalso.
      apply Exists_exists in Hex as (ev & Hin & Hmiss).
      rewrite Forall_forall in Hall. destruct (Hall _ Hin) as [Hsl|Hobs].
      * destruct Hmiss as (e & -> & _). discriminate.
      * by apply obsDeleted_false in Hobs.
    + split; [|done]. split; [|done]. intros _.
      destruct (pollRun_success interval _ _ _ Hrun) as (pre & ev & -> & Hev).
      apply Exists_app. right. constructor.
      destruct (obsDeleted_true _ _ Hev) as (e & -> & Hnf). by exists e.
Qed.

(** X11: a call submits exactly one delete, first, for an object that
    carries only the name and namespace.  After a rejected submission it
    makes no further request; otherwise everything that follows is a sleep
    of one interval or a lookup under that name and namespace, and the
    object submitted is still what it was when the call returns. *)
Theorem DeleteApplication_requests name namespace report (s : State W) :
  let key := {| KeyName := name; KeyNamespace := namespace |} in
  let submission := fst (rclient.Delete (doomed name namespace) (world s)) in
  let out := has.DeleteApplication interval name namespace report s in
  ∃ evs,
    trace (snd out) = trace s ++ EvDelete (doomed name namespace) submission :: evs
    ∧ Forall (sleepOrLookup interval key) evs
    ∧ (deleteRejected submission report = true → evs = [])
    ∧ deref (heap (snd out)) (length (heap s)) = doomed name namespace.
Proof.
  intros key submission out. subst submission out.
  destruct (rclient.Delete (doomed name namespace) (world s)) as [r w1] eqn:Hd.
  cbn [fst]. destruct (deleteRejected r report) eqn:Hrej.
  - rewrite (DeleteApplication_run _ _ _ _ _ _ _ Hd), Hrej. cbv zeta.
    exists []. cbn [snd trace heap]. split; [reflexivity|]. split; [constructor|].
    split; [done|apply deref_fresh].
  - destruct (DeleteApplication_anatomy _ _ _ _ _ _ Hd Hrej) as (evs & Ht & Hrun & Hobj).
    cbv zeta in Ht, Hrun, Hobj. exists evs. split; [exact Ht|]. split; [|by split].
    eapply Forall_impl; [exact (pollRun_events _ _ _ _ Hrun)|].
    intros ev [->|(b & r' & -> & _)]; [by left|right; by exists r'].
Qed.

(** *** Bulk deletion *)



(** *** The default timeout *)

(** X14: [CreateApplication] sleeps less than ten minutes plus one
    interval, whatever the cluster does; and when the submission was
    accepted and no application comes back, it has slept at least ten
    minutes. *)
Theorem CreateApplication_blocks_ten_minutes name namespace (s : State W) :
  let out := has.CreateApplication interval json name namespace s in
  ∃ evs,
    trace (snd out) = trace s ++ evs
    ∧ slept evs < 600000000000 + Z.pos interval
    ∧ (∀ created w1,
         rclient.Create (requested name namespace) (world s) = (Ok created, w1) →
         fst (fst out) = None →
         600000000000 <= slept evs).
Proof.
  intros out. subst out. unfold has.CreateApplication. rewrite ten_minutes_ns.
  destruct (CreateApplicationWithTimeout_sleeps interval json name namespace
              600000000000 s) as (evs & Ht & Hlt).
  exists evs. split; [exact Ht|]. split; [lia|].
  intros created w1 Hc Hnil.
  destruct (CreateApplicationWithTimeout_anatomy name namespace 600000000000 s
              created w1 Hc) as (evs' & res & Hrun & Hres).
  cbv zeta in Hres. destruct res as [err|].
  - destruct Hres as (r & _ & Ht'). rewrite Ht' in Ht.
    apply app_inv_head in Ht. subst evs.
    destruct (pollRun_expired interval _ _ _ _ (obsDevfile_not_sleep _) Hrun)
      as (_ & Hs & _).
    pose proof (ticksUntil_spec interval 600000000000 ltac:(lia)) as Hspec.
    cbv zeta in Hspec.
    cbn [slept]. rewrite slept_app. cbn [slept]. lia.
  - destruct Hres as (Hfst & _). rewrite Hfst in Hnil. discriminate.
Qed.

End HasEffects.

(** ** Further runs on the reference cluster *)

Section MoreRuns.
Import fake.

(** A lookup that fails leaves the application as it was. *)
Lemma ApplicationDevfilePresent_effect_witness :
  let s := mkState [app "demo" "ns2" "old"] stalled [] in
  (0 < length (heap s))%nat
  ∧ deref (heap (snd (has.ApplicationDevfilePresent 0 s))) 0 = app "demo" "ns2" "old".
Proof.
  intros s.
  assert (H : (0 < length (heap s))%nat) by (simpl; lia).
  split; [exact H|].
  exact (proj1 (proj2 (proj2 (ApplicationDevfilePresent_effect 0 s H)))).
Defined.

(** A refresh that finds the application returns a new pointer. *)
Lemma refreshApplicationForErrorDebug_effect_witness :
  let s := mkState [app "demo" "ns1" "old"] stalled [] in
  (0 < length (heap s))%nat
  ∧ fst (has.refreshApplicationForErrorDebug 0 s) = 1%nat
  ∧ deref (heap (snd (has.refreshApplicationForErrorDebug 0 s))) 0
    = app "demo" "ns1" "old".
Proof.
  intros s.
  assert (H : (0 < length (heap s))%nat) by (simpl; lia).
  split; [exact H|].
  destruct (refreshApplicationForErrorDebug_effect 0 s H) as (Hret & Hframe & _).
  split; [exact (proj1 Hret)|exact (Hframe 0%nat H)].
Defined.

(** With the controller running the application comes back reconciled. *)
Lemma CreateApplicationWithTimeout_ready_witness :
  let c := mkCluster ∅ true false in
  let created := requested "demo" "ns1" in
  let out := has.CreateApplicationWithTimeout everySecond json "demo" "ns1"
               5000000000 (start c) in
  rclient.Create created (world (start c)) = (Ok created, snd (rclient.Create created c))
  ∧ fst out = (Some 0%nat, None)
  ∧ ∃ pre a,
      trace (snd out)
      = EvCreate created (Ok created)
          :: pre ++ [EvGet (ObjectKeyFromObject created) (Ok a)]
      ∧ Devfile (Status a) ≠ ""
      ∧ deref (heap (snd out)) 0 = setStatus (Status a) created.
Proof.
  intros c created out.
  assert (H1 : rclient.Create created (world (start c))
               = (Ok created, snd (rclient.Create created c)))
    by (vm_compute; reflexivity).
  assert (H2 : fst out = (Some 0%nat, None)) by (vm_compute; reflexivity).
  split; [exact H1|]. split; [exact H2|].
  exact (proj2 (CreateApplicationWithTimeout_ready everySecond json "demo" "ns1"
                  5000000000 (start c) created _ 0%nat H1 H2)).
Defined.

(** With no controller the call times out after two sleeps. *)
Lemma CreateApplicationWithTimeout_timeout_dump_witness :
  let created := requested "demo" "ns2" in
  let out := has.CreateApplicationWithTimeout everySecond json "demo" "ns2"
               2000000000 (start stalled) in
  let err := errorString
               (has.createTimeoutMessage "demo" "ns2" utils.ErrWaitTimeout
                  "{name: demo, namespace: ns2, devfile: }") in
  rclient.Create created (world (start stalled))
  = (Ok created, snd (rclient.Create created stalled))
  ∧ fst out = (None, Some err)
  ∧ ∃ evs r,
      trace (snd out)
      = EvCreate created (Ok created) :: evs ++ [EvGet (ObjectKeyFromObject created) r]
      ∧ slept evs = 2000000000.
Proof.
  intros created out err.
  assert (H1 : rclient.Create created (world (start stalled))
               = (Ok created, snd (rclient.Create created stalled)))
    by (vm_compute; reflexivity).
  assert (H2 : fst out = (None, Some err)) by (vm_compute; reflexivity).
  split; [exact H1|]. split; [exact H2|].
  destruct (CreateApplicationWithTimeout_timeout_dump everySecond json "demo" "ns2"
              2000000000 (start stalled) created _ err H1 H2)
    as (evs & r & Ht & Hs & _).
  exists evs, r. split; [exact Ht|]. rewrite Hs. reflexivity.
Defined.

(** Deleting while the API server is unreachable. *)
Lemma DeleteApplication_other_error_witness :
  let c := mkCluster ∅ false true in
  rclient.Delete (doomed "demo" "ns1") (world (start c)) = (Some unreachable, c)
  ∧ IsNotFound unreachable = false
  ∧ fst (has.DeleteApplication everySecond "demo" "ns1" false (start c))
    = Some (errorString "error deleting an application: connection refused").
Proof.
  intros c.
  assert (H1 : rclient.Delete (doomed "demo" "ns1") (world (start c))
               = (Some unreachable, c)) by reflexivity.
  assert (H2 : IsNotFound unreachable = false) by reflexivity.
  split; [exact H1|]. split; [exact H2|].
  rewrite (DeleteApplication_other_error everySecond "demo" "ns1" false (start c)
             unreachable c H1 H2).
  reflexivity.
Defined.


End MoreRuns.
